(** * Therac-25 k6 scenarios: a shallow embedding and its properties

    The development embeds the three k6 scenario scripts of the repository

    - the concurrent-operations scenario ([ConcurrentOperations]),
    - the counter-overflow stress scenario ([StressOverflow]), with the
      Python driver it hands to the interpreter,
    - the fast-typing scenario ([FastTyping]),

    and proves the properties the specification states about them.

    Conventions.  A JavaScript number that the scripts only use as an
    integer (VU identifiers, millisecond clock readings, counters) is a [Z];
    a rate is a [Q].  A string is the sequence of its UTF-8 bytes.  A
    JavaScript value that may be [undefined] is an
    [option].  A call that may throw is a [completion].  [console.log]
    lines are not part of the model, since nothing reads them back, except
    in the summaries of the concurrent and the fast-typing scenario, whose
    warnings are what they tell the reader of a run. *)

From Stdlib Require Import ZArith QArith Qround String Ascii List Bool Lia.
From stdpp Require Import base list strings pretty gmap.

Open Scope Z_scope.

(** ** JavaScript and Python strings *)

Module Str.

  (** The double quote, which the scripts use to wrap the Python program. *)
Definition dq : string := String "034"%char EmptyString.

Definition nl : string := String "010"%char EmptyString.

  (** [`${n}`] and Python's [f'{n}'] for an integer. *)
Definition num (n : Z) : string := pretty n.

  (** [s.includes(kw)] in JavaScript. *)
Fixpoint includes (s kw : string) : bool :=
    if String.prefix kw s then true
    else match s with
         | EmptyString => false
         | String _ t => includes t kw
         end.

  (** The keyword occurs somewhere in the token. *)
Definition occurs_in (kw s : string) : Prop :=
    exists pre post : string, s = pre +:+ kw +:+ post.

(** The strings of the model are the UTF-8 bytes of the strings of the
    scripts.  The white space and the line terminators that [trim] strips
    are, in one byte, TAB, LF, VT, FF, CR and SP. *)
Definition is_white (a : ascii) : bool :=
    let n := nat_of_ascii a in
    (Nat.eqb n 32 || (Nat.leb 9 n && Nat.leb n 13))%bool.

(** In two bytes: U+00A0, the no-break space. *)
Definition is_white2 (a b : ascii) : bool :=
  (Nat.eqb (nat_of_ascii a) 194 && Nat.eqb (nat_of_ascii b) 160)%bool.

(** In three bytes: U+1680; U+2000 to U+200A, the line and paragraph
    separators U+2028 and U+2029, and U+202F; U+205F; U+3000; and the byte
    order mark U+FEFF. *)
Definition is_white3 (a b c : ascii) : bool :=
  let x := nat_of_ascii a in
  let y := nat_of_ascii b in
  let z := nat_of_ascii c in
  ((Nat.eqb x 225 && Nat.eqb y 154 && Nat.eqb z 128)
   || (Nat.eqb x 226 && Nat.eqb y 128
       && ((Nat.leb 128 z && Nat.leb z 138)
           || Nat.eqb z 168 || Nat.eqb z 169 || Nat.eqb z 175))
   || (Nat.eqb x 226 && Nat.eqb y 129 && Nat.eqb z 159)
   || (Nat.eqb x 227 && Nat.eqb y 128 && Nat.eqb z 128)
   || (Nat.eqb x 239 && Nat.eqb y 187 && Nat.eqb z 191))%bool.

(** Drop the white space a string starts with; [w2] and [w3] recognise the
    white spaces of two and of three bytes. *)
Fixpoint drop_white (w2 : ascii -> ascii -> bool)
  (w3 : ascii -> ascii -> ascii -> bool) (s : string) : string :=
  match s with
  | EmptyString => EmptyString
  | String a t =>
      if is_white a then drop_white w2 w3 t
      else match t with
           | EmptyString => s
           | String b u =>
               if w2 a b then drop_white w2 w3 u
               else match u with
                    | EmptyString => s
                    | String c v =>
                        if w3 a b c then drop_white w2 w3 v else s
                    end
           end
  end.

Fixpoint reverse_onto (s acc : string) : string :=
  match s with
  | EmptyString => acc
  | String a t => reverse_onto t (String a acc)
  end.

Definition reverse (s : string) : string := reverse_onto s EmptyString.

Definition trim_start (s : string) : string := drop_white is_white2 is_white3 s.

(** The white space a string ends with is read backwards from its end: a
    character of UTF-8 is recognised by its bytes in either direction. *)
Definition trim_end (s : string) : string :=
  reverse
    (drop_white (fun b a => is_white2 a b) (fun c b a => is_white3 a b c)
       (reverse s)).

  (** [s.trim()] *)
Definition trim (s : string) : string := trim_end (trim_start s).

  (** Python's [sep.join(parts)]. *)
Fixpoint join (sep : string) (parts : list string) : string :=
    match parts with
    | [] => EmptyString
    | [p] => p
    | p :: rest => p +:+ sep +:+ join sep rest
    end.

End Str.

(** ** Completions: a call returns or throws *)

Inductive completion (A : Type) : Type :=
| Normal (v : A)
| Throw (message : string).

Arguments Normal {A} v.
Arguments Throw {A} message.

#[global] Instance completion_ret : MRet completion := fun A v => Normal v.

#[global] Instance completion_bind : MBind completion :=
  fun A B f m =>
    match m with
    | Normal v => f v
    | Throw e => Throw e
    end.

(** [try { body } catch (error) { handler(error.message) }] *)
Definition try_catch {A} (body : completion A) (handler : string -> completion A)
  : completion A :=
  match body with
  | Normal v => Normal v
  | Throw e => handler e
  end.

(** [`${v}`] for a value that may be [undefined]. *)
Definition template_of (v : option string) : string :=
  match v with
  | Some s => s
  | None => "undefined"
  end.

(** [a[i]] for an array and an integer index: [undefined] out of range. *)
Definition js_index {A : Type} (a : list A) (i : Z) : option A :=
  if i <? 0 then None else a !! Z.to_nat i.

(** ** The part of k6 and of Node the scripts call *)

Module K6.

  (** [check(val, sets)] evaluates every named predicate on [val]; each
      result is one sample of the [checks] metric. *)
Definition check {A : Type} (val : A) (sets : list (string * (A -> bool)))
    : list (string * bool) :=
    map (fun set => (fst set, snd set val)) sets.

  (** Options of [execSync]. *)
Record ExecOptions : Type := mkExecOptions {
    encoding : string;
    timeout : Z;
    maxBuffer : option Z
  }.

  (** [execSync(command, options)] returns the standard output of the
      child process or throws. *)
Definition execSync_t : Type := string -> ExecOptions -> completion string.

(** One entry of [options.thresholds], as k6 parses the expression: the
    metric, the aggregation, the comparator and the bound. *)
Inductive comparator : Type := Gt | Lt | Ge | Le | EqC.

Record threshold : Type := mkThreshold {
  metric_name : string;
  aggregation : string;
  cmp : comparator;
  bound : Q
}.

End K6.

(** ** The concurrent-operations scenario *)

Module ConcurrentOperations.
Import Str K6.

Definition thresholds : list threshold :=
    [ mkThreshold "checks" "rate" Gt 0.90%Q;
      mkThreshold "http_req_duration" "p(95)" Lt 3000%Q;
      mkThreshold "race_conditions_detected" "count" Lt 5%Q ].

Definition workflows : list string :=
    [ "experienced_fast";
      "new_cautious";
      "emergency_rapid";
      "routine_editing";
      "mode_switching" ].

  (** [workflows[vuId % workflows.length]]; the remainder of JavaScript
      takes the sign of [vuId]. *)
Definition getWorkflowForOperator (vuId : Z) : option string :=
    js_index workflows (Z.rem vuId (Z.of_nat (length workflows))).

  (** The arm of the [switch] that a workflow name selects. *)
Inductive arm : Type :=
  | ExperiencedFast
  | NewCautious
  | EmergencyRapid
  | RoutineEditing
  | ModeSwitching
  | StandardWorkflow.

Definition switch_arm (workflow : option string) : arm :=
    match workflow with
    | None => StandardWorkflow
    | Some w =>
        if String.eqb w "experienced_fast" then ExperiencedFast
        else if String.eqb w "new_cautious" then NewCautious
        else if String.eqb w "emergency_rapid" then EmergencyRapid
        else if String.eqb w "routine_editing" then RoutineEditing
        else if String.eqb w "mode_switching" then ModeSwitching
        else StandardWorkflow
    end.

Definition python_header : string :=
    "cd /app && python -c " +:+ dq +:+ nl.

Definition experiencedFast_command (vuId : Z) : string :=
    python_header +:+
"from src.simulator.control_module import ControlModule, BeamMode
import time
import threading

c = ControlModule('buggy')

# Fast setup like experienced operator
c.setup_treatment(" +:+ num (200 + vuId * 10) +:+ ", " +:+ num (vuId * 5)
      +:+ ", " +:+ num (vuId * 3) +:+ ")

# Quick mode changes (this is dangerous!)
c.change_mode(BeamMode.XRAY)
time.sleep(0.05)  # Very brief pause
c.change_mode(BeamMode.ELECTRON)

# Fire immediately
result = c.fire_beam()
print(f'OPERATOR_" +:+ num vuId +:+ ":{result}')
" +:+ dq.

Definition emergencyRapid_command (vuId : Z) : string :=
    python_header +:+
"from src.simulator.control_module import ControlModule, BeamMode
import threading
import time

c = ControlModule('buggy')

# Emergency case - no time for delays
c.setup_treatment(300, " +:+ num (vuId * 2) +:+ ", " +:+ num (vuId * 4) +:+ ")
c.change_mode(BeamMode.ELECTRON)

# Immediate fire (emergency situations cause accidents)
result = c.fire_beam()
print(f'EMERGENCY_" +:+ num vuId +:+ ":{result}')
" +:+ dq.

Definition routineEditing_command (vuId : Z) : string :=
    python_header +:+
"from src.simulator.control_module import ControlModule, BeamMode
import threading
import time

c = ControlModule('buggy')

# Initial setup
c.setup_treatment(250, 10, 15)

# Multiple edits (creates race conditions)
def edit1():
    time.sleep(0.02)
    c.edit_treatment('dose', " +:+ num (400 + vuId * 50) +:+ ")

def edit2():
    time.sleep(0.05)
    c.edit_treatment('position_x', " +:+ num (vuId * 7) +:+ ")

# Start concurrent edits
t1 = threading.Thread(target=edit1)
t2 = threading.Thread(target=edit2)
t1.start()
t2.start()

# Try to fire while editing (DANGEROUS)
time.sleep(0.03)
result = c.fire_beam()

t1.join()
t2.join()

print(f'EDITING_" +:+ num vuId +:+ ":{result}')
" +:+ dq.

Definition modeSwitching_command (vuId : Z) : string :=
    python_header +:+
"from src.simulator.control_module import ControlModule, BeamMode
import time

c = ControlModule('buggy')

# Setup
c.setup_treatment(275, " +:+ num (vuId * 6) +:+ ", " +:+ num (vuId * 8) +:+ ")

# Rapid mode switches (causes race conditions)
modes = [BeamMode.XRAY, BeamMode.ELECTRON, BeamMode.XRAY, BeamMode.ELECTRON]
for mode in modes:
    c.change_mode(mode)
    time.sleep(0.02)  # Very short delay

# Fire after rapid switches
result = c.fire_beam()
print(f'SWITCHING_" +:+ num vuId +:+ ":{result}')
" +:+ dq.

Definition standardWorkflow_command (vuId : Z) : string :=
    python_header +:+
"from src.simulator.control_module import ControlModule, BeamMode

c = ControlModule('buggy')
c.setup_treatment(" +:+ num (225 + vuId * 15) +:+ ", " +:+ num (vuId * 4)
      +:+ ", " +:+ num (vuId * 5) +:+ ")
c.change_mode(BeamMode.ELECTRON)
result = c.fire_beam()
print(f'STANDARD_" +:+ num vuId +:+ ":{result}')
" +:+ dq.

Definition newCautious_command (vuId : Z) : string :=
    python_header +:+
"from src.simulator.control_module import ControlModule, BeamMode
import time

c = ControlModule('buggy')

# Slow, careful setup
c.setup_treatment(180, " +:+ num (vuId * 3) +:+ ", " +:+ num (vuId * 2) +:+ ")
time.sleep(0.2)  # Cautious pause

c.change_mode(BeamMode.ELECTRON)
time.sleep(0.3)  # Another pause

result = c.fire_beam()
print(f'CAUTIOUS_" +:+ num vuId +:+ ":{result}')
" +:+ dq.

Section Engine.

    (** [require('child_process')] gives [execSync], or throws where the
        module does not exist. *)
Variable require_child_process : completion execSync_t.

    (** The common shape of the six workflow functions: require the
        module, run the command under the workflow's timeout, trim. *)
Definition run_python (command : string) (timeout_ms : Z) : completion string :=
      execSync ← require_child_process;
      result ← execSync command (mkExecOptions "utf8" timeout_ms None);
      mret (trim result).

Definition executeExperiencedFast (vuId : Z) : completion string :=
      run_python (experiencedFast_command vuId) 8000.

Definition executeEmergencyRapid (vuId : Z) : completion string :=
      run_python (emergencyRapid_command vuId) 6000.

Definition executeRoutineEditing (vuId : Z) : completion string :=
      run_python (routineEditing_command vuId) 10000.

Definition executeModeSwitching (vuId : Z) : completion string :=
      run_python (modeSwitching_command vuId) 8000.

Definition executeStandardWorkflow (vuId : Z) : completion string :=
      run_python (standardWorkflow_command vuId) 5000.

Definition executeNewCautious (vuId : Z) : completion string :=
      run_python (newCautious_command vuId) 8000.

Definition run_arm (a : arm) (vuId : Z) : completion string :=
      match a with
      | ExperiencedFast => executeExperiencedFast vuId
      | NewCautious => executeNewCautious vuId
      | EmergencyRapid => executeEmergencyRapid vuId
      | RoutineEditing => executeRoutineEditing vuId
      | ModeSwitching => executeModeSwitching vuId
      | StandardWorkflow => executeStandardWorkflow vuId
      end.

Definition executeWorkflow (workflow : option string) (vuId : Z)
      : completion string :=
      try_catch
        (run_arm (switch_arm workflow) vuId)
        (fun message =>
           mret ("ERROR_" +:+ template_of workflow +:+ ": " +:+ message)).

    (** The check battery of the default function. *)
Definition checks : list (string * (string -> bool)) :=
      [ ("No lethal conditions", fun r => negb (includes r "LETHAL"));
        ("No overdose conditions", fun r => negb (includes r "OVERDOSE"));
        ("No critical errors", fun r => negb (includes r "CRITICAL_ERROR"));
        ("State consistency maintained",
          fun r => negb (includes r "INCONSISTENT")) ].

    (** What one outcome token does to the VU: the samples of the check
        battery and the new value of [raceConditionsDetected]. *)
Definition classify (result : string) (raceConditionsDetected : Z)
      : list (string * bool) * Z :=
      (check result checks,
       if (includes result "RACE" || includes result "CONFLICT")%bool
       then raceConditionsDetected + 1
       else raceConditionsDetected).

    (** The default function: one iteration of the VU [vuId].  The random
        think time at its end changes nothing it returns. *)
Definition default (vuId : Z) (raceConditionsDetected : Z)
      : completion (list (string * bool) * Z) :=
      let workflow := getWorkflowForOperator vuId in
      result ← executeWorkflow workflow vuId;
      mret (classify result raceConditionsDetected).

End Engine.

  (** The descriptor the specification's dispatch function names:
      [catalogue[vu_id mod len(catalogue)]]. *)
Definition workflow_for (catalogue : list string) (vu_id : Z) : option string :=
    catalogue !! Z.to_nat (vu_id mod Z.of_nat (length catalogue)).

(** The hazard keywords the default function looks for in a token. *)
Definition hazard_keywords : list string :=
  [ "LETHAL"; "OVERDOSE"; "CRITICAL_ERROR"; "INCONSISTENT"; "RACE"; "CONFLICT" ].

(** The names a dispatch can put into an error token. *)
Definition dispatched_names : list string := "undefined" :: workflows.

(** The samples of a token on which every check of the battery passes. *)
Definition clean_samples : list (string * bool) :=
  [ ("No lethal conditions", true);
    ("No overdose conditions", true);
    ("No critical errors", true);
    ("State consistency maintained", true) ].

End ConcurrentOperations.

(** ** The target, as the Python programs use it *)

(** The programs create a [ControlModule], call [setup_treatment] on it and
    read its [setup_counter] and [dose_value].  The class is the part of
    that object they rely on; its state is threaded explicitly.  The calls
    return: a program whose target raises ends without its summary line,
    and the script that started it sees [execSync] throw. *)
Class ControlModule : Type := {
  machine : Type;
  outcome : Type;
  (** the truth value Python gives an outcome in [if outcome and ...] *)
  truthy : outcome -> bool;
  (** [ControlModule(version)] *)
  new_module : string -> machine;
  setup_treatment : Z -> Z -> Z -> machine -> outcome * machine;
  setup_counter : machine -> Z;
  dose_value : machine -> Z
}.

(** The counter model of an 8-bit target: a fresh module counts from 0 and
    every setup advances the counter by one, modulo 256. *)
Record eight_bit_counter (T : ControlModule) : Prop := {
  counter_fresh : forall version, setup_counter (new_module version) = 0;
  counter_step : forall dose x y m,
    setup_counter (snd (setup_treatment dose x y m)) = (setup_counter m + 1) mod 256
}.

(** ** The counter-overflow stress scenario *)

Module StressOverflow.
Import Str K6.

Definition thresholds : list threshold :=
  [ mkThreshold "checks" "rate" Gt 0.95%Q;
    mkThreshold "counter_overflow_detected" "count" Gt 0%Q;
    mkThreshold "safety_bypass_detected" "count" Gt 0%Q ].

(** The Python program of [performOverflowTest], as the script writes it. *)
Definition command : string :=
  "cd /app && python -c " +:+ dq +:+ nl +:+
"from src.simulator.control_module import ControlModule, BeamMode
import time

print('Starting overflow stress test...')
c = ControlModule('buggy')

# Track critical counter values
critical_points = []
safety_bypasses = []
overflow_detected = False

# Simulate 300 patients to force counter overflow
for patient in range(1, 301):
    # Each patient setup increments counter
    result = c.setup_treatment(
        dose=200 + (patient % 100),  # Vary dose
        x=patient % 50,
        y=patient % 30
    )

    current_counter = c.setup_counter

    # Track critical points around overflow
    if current_counter in [253, 254, 255, 0, 1, 2]:
        critical_points.append((patient, current_counter))
        print(f'Patient {patient}: Counter = {current_counter}')

    # Test for overflow
    if current_counter == 0 and patient > 255:
        overflow_detected = True
        print(f'OVERFLOW DETECTED at patient {patient}')

        # Test if safety is bypassed when counter = 0
        safety_test = c.setup_treatment(dose=99999, x=0, y=0)  # Invalid dose
        if safety_test and c.dose_value == 99999:
            safety_bypasses.append(patient)
            print(f'SAFETY BYPASS at patient {patient} - invalid dose accepted!')

    # Brief simulation of treatment time
    if patient % 50 == 0:
        print(f'Processed {patient}/300 patients...')

print(f'Test completed. Critical points: {critical_points}')
print(f'Overflow detected: {overflow_detected}')
print(f'Safety bypasses: {len(safety_bypasses)}')

# Return summary
result_parts = []
if overflow_detected:
    result_parts.append('OVERFLOW_DETECTED')
if safety_bypasses:
    result_parts.append('SAFETY_BYPASS')
if any(point[1] == 0 for point in critical_points):
    result_parts.append('COUNTER_0')

result_parts.append(f'CRITICAL_POINTS:{len(critical_points)}')
result_parts.append(f'BYPASSES:{len(safety_bypasses)}')

print(':'.join(result_parts))
" +:+ dq.

(** [range(lo, hi)] *)
Definition python_range (lo hi : Z) : list Z :=
  map (fun i => lo + Z.of_nat i) (seq 0 (Z.to_nat (hi - lo))).

(** [len(l)] *)
Definition len {A : Type} (l : list A) : Z := Z.of_nat (length l).

(** [repr] of a list of pairs of integers, as an f-string prints it. *)
Definition repr_point (p : Z * Z) : string :=
  "(" +:+ num (fst p) +:+ ", " +:+ num (snd p) +:+ ")".

Definition repr_points (l : list (Z * Z)) : string :=
  "[" +:+ join ", " (map repr_point l) +:+ "]".

Definition repr_bool (b : bool) : string := if b then "True" else "False".

(** The counter values around the wraparound that the driver tracks. *)
Definition window : list Z := [253; 254; 255; 0; 1; 2].

Section Driver.

Context {T : ControlModule}.

(** The variables of the program that the statements after their
    assignment read, and the lines it has printed. *)
Record driver : Type := mkDriver {
  c : machine;
  critical_points : list (Z * Z);
  safety_bypasses : list Z;
  overflow_detected : bool;
  current_counter : option Z;
  printed : list string
}.

Definition print (line : string) (d : driver) : driver :=
  mkDriver (c d) (critical_points d) (safety_bypasses d) (overflow_detected d)
    (current_counter d) (printed d ++ [line]).

(** The module after the setup of one patient:
    [c.setup_treatment(dose=200 + (patient % 100), x=patient % 50, y=patient % 30)] *)
Definition patient_setup (patient : Z) (m : machine) : machine :=
  snd (setup_treatment (200 + patient mod 100) (patient mod 50)
         (patient mod 30) m).

(** [result = c.setup_treatment(...)] then [current_counter = c.setup_counter] *)
Definition setup_patient (patient : Z) (d : driver) : driver :=
  let c' := patient_setup patient (c d) in
  mkDriver c' (critical_points d) (safety_bypasses d) (overflow_detected d)
    (Some (setup_counter c')) (printed d).

(** [if current_counter in [253, 254, 255, 0, 1, 2]: ...] *)
Definition track_critical (patient counter : Z) (d : driver) : driver :=
  if bool_decide (counter ∈ window) then
    print ("Patient " +:+ num patient +:+ ": Counter = " +:+ num counter)
      (mkDriver (c d) (critical_points d ++ [(patient, counter)])
         (safety_bypasses d) (overflow_detected d) (current_counter d)
         (printed d))
  else d.

(** [safety_test = c.setup_treatment(dose=99999, x=0, y=0)] and the test
    that follows it. *)
Definition test_safety (patient : Z) (d : driver) : driver :=
  let safety_test := setup_treatment 99999 0 0 (c d) in
  let d' := mkDriver (snd safety_test) (critical_points d) (safety_bypasses d)
              (overflow_detected d) (current_counter d) (printed d) in
  if (truthy (fst safety_test) && (dose_value (c d') =? 99999))%bool then
    print ("SAFETY BYPASS at patient " +:+ num patient
           +:+ " - invalid dose accepted!")
      (mkDriver (c d') (critical_points d') (safety_bypasses d' ++ [patient])
         (overflow_detected d') (current_counter d') (printed d'))
  else d'.

(** [current_counter == 0 and patient > 255] *)
Definition wraps (patient counter : Z) : bool :=
  ((counter =? 0) && (patient >? 255))%bool.

(** [if current_counter == 0 and patient > 255: ...] *)
Definition test_overflow (patient counter : Z) (d : driver) : driver :=
  if wraps patient counter then
    test_safety patient
      (print ("OVERFLOW DETECTED at patient " +:+ num patient)
         (mkDriver (c d) (critical_points d) (safety_bypasses d) true
            (current_counter d) (printed d)))
  else d.

(** [if patient % 50 == 0: ...] *)
Definition report_progress (patient : Z) (d : driver) : driver :=
  if patient mod 50 =? 0 then
    print ("Processed " +:+ num patient +:+ "/300 patients...") d
  else d.

(** The body of the [for] loop. *)
Definition loop_body (patient : Z) (d : driver) : driver :=
  let d1 := setup_patient patient d in
  let counter := setup_counter (c d1) in
  report_progress patient
    (test_overflow patient counter (track_critical patient counter d1)).

Definition run_patients (patients : list Z) (d : driver) : driver :=
  fold_left (fun d patient => loop_body patient d) patients d.

(** The state when the loop is entered. *)
Definition start : driver :=
  mkDriver (new_module "buggy") [] [] false None
    ["Starting overflow stress test..."].

(** The state after the first [n] patients. *)
Definition after_patients (n : Z) : driver :=
  run_patients (python_range 1 (1 + n)) start.

(** The state when the loop [for patient in range(1, 301)] is left. *)
Definition loop_end : driver := run_patients (python_range 1 301) start.

Definition result_parts (d : driver) : list string :=
  (if overflow_detected d then ["OVERFLOW_DETECTED"] else [])
  ++ (match safety_bypasses d with [] => [] | _ => ["SAFETY_BYPASS"] end)
  ++ (if existsb (fun point => snd point =? 0) (critical_points d)
      then ["COUNTER_0"] else [])
  ++ ["CRITICAL_POINTS:" +:+ num (len (critical_points d))]
  ++ ["BYPASSES:" +:+ num (len (safety_bypasses d))].

(** The statements after the loop. *)
Definition finish (d : driver) : driver :=
  let d1 := print ("Test completed. Critical points: "
                   +:+ repr_points (critical_points d)) d in
  let d2 := print ("Overflow detected: " +:+ repr_bool (overflow_detected d1)) d1 in
  let d3 := print ("Safety bypasses: " +:+ num (len (safety_bypasses d2))) d2 in
  print (join ":" (result_parts d3)) d3.

(** The structured result of the driver. *)
Definition wraparound_observed (d : driver) : bool := overflow_detected d.

Definition bypass_observed (d : driver) : bool :=
  match safety_bypasses d with
  | [] => false
  | _ => true
  end.

(** What the program has written when it ends: every line and its newline. *)
Definition script_stdout : string :=
  fold_right (fun line out => line +:+ nl +:+ out) EmptyString
    (printed (finish loop_end)).

(** The interpreter, when it runs the program to its end against [T]. *)
Definition python : execSync_t := fun _ _ => Normal script_stdout.

(** *** [testSpecificOverflowScenarios] *)

(** [for i in range(n): c.setup_treatment(100, 0, 0)] *)
Definition setups (n : nat) (m : machine) : machine :=
  Nat.iter n (fun m => snd (setup_treatment 100 0 0 m)) m.

(** The third component of a scenario: an outcome of the target, or the
    constant [True] of the last scenario. *)
Inductive scenario_result : Type :=
| FromTarget (o : outcome)
| PyTrue.

Definition scenarios : list (string * Z * scenario_result) :=
  let c1 := setups 255 (new_module "buggy") in
  let at_limit := ("AT_LIMIT", setup_counter c1,
                   FromTarget (fst (setup_treatment 100 0 0 c1))) in
  let c2 := setups 256 (new_module "buggy") in
  let invalid_dose_accepted := setup_treatment 50000 0 0 c2 in
  let overflow_0 := ("OVERFLOW_0", setup_counter (snd invalid_dose_accepted),
                     FromTarget (fst invalid_dose_accepted)) in
  let c3 := setups 257 (new_module "buggy") in
  [ at_limit; overflow_0; ("AFTER_OVERFLOW", setup_counter c3, PyTrue) ].

End Driver.

Section Script.

Variable require_child_process : completion execSync_t.

Definition performOverflowTest : completion string :=
  try_catch
    (execSync ← require_child_process;
     result ← execSync command (mkExecOptions "utf8" 120000 (Some (1024 * 1024)));
     mret (trim result))
    (fun message => mret ("ERROR: " +:+ message)).

Definition checks : list (string * (string -> bool)) :=
  [ ("Counter overflow reproduced", fun r => includes r "OVERFLOW_DETECTED");
    ("Safety bypass confirmed", fun r => includes r "SAFETY_BYPASS");
    ("Critical bug present", fun r => includes r "COUNTER_0") ].

(** The default function: the samples its one [check] records. *)
Definition default : completion (list (string * bool)) :=
  result ← performOverflowTest;
  mret (check result checks).

End Script.

End StressOverflow.

(** ** The summary of the counter-overflow scenario *)

Module OverflowSummary.
Import Str K6.

#[local] Set Warnings "-register-all".

(** A value handed to [JSON.stringify]. *)
Inductive json : Type :=
| JNum (q : Q)
| JBool (b : bool)
| JStr (s : string)
| JArr (items : list json)
| JObj (fields : list (string * json)).

(** [o[key]] on an object literal: the first field of that name. *)
Fixpoint field (key : string) (fields : list (string * json)) : option json :=
  match fields with
  | [] => None
  | (k, v) :: rest => if String.eqb k key then Some v else field key rest
  end.

Definition member (key : string) (o : json) : option json :=
  match o with
  | JObj fields => field key fields
  | _ => None
  end.


(** [data.metrics]: the values of every metric of the run, by name. *)
Definition summary_data : Type := gmap string (gmap string Q).

(** [data.metrics.m?.values.v] *)
Definition metric_value (data : summary_data) (m v : string) : option Q :=
  data !! m ≫= fun values => values !! v.

(** [n || 0] on a number that may be [undefined]. *)
Definition or_zero (n : option Q) : Q :=
  match n with
  | Some q => if Qeq_bool q 0 then 0%Q else q
  | None => 0%Q
  end.

(** The two files [handleSummary] returns: the data it echoes and the
    object it serialises as [summary.json]. *)
Record summary_files : Type := mkFiles {
  stdout_file : summary_data;
  summary_json : json
}.

Definition recommendations : list string :=
  [ "Use 32-bit counters";
    "Add overflow checks";
    "Independent safety validation";
    "Counter reset procedures";
    "High-value alerts" ].

(** The object literal that [handleSummary] serialises as [summary.json]. *)
Definition summary_record (stdout : string) (checkRate iterations : Q) : json :=
  JObj
    [ ("test_type", JStr "counter_overflow_stress");
      ("overflow_detected", JBool (includes stdout "OVERFLOW_DETECTED"));
      ("safety_bypass_detected", JBool (includes stdout "SAFETY_BYPASS"));
      ("counter_zero_confirmed", JBool (includes stdout "COUNTER_0"));
      ("check_success_rate", JNum checkRate);
      ("iterations", JNum iterations);
      ("recommendations", JArr (map JStr recommendations)) ].

Section Summary.

(** [Buffer.from(n).toString()], which the runtime provides or refuses. *)
Variable Buffer_from_toString : option Q -> completion string.

Definition handleSummary (data : summary_data) : completion summary_files :=
  let checkRate := or_zero (metric_value data "checks" "rate") in
  let iterations := or_zero (metric_value data "iterations" "count") in
  stdout ← match data !! "data_received" with
           | Some values => Buffer_from_toString (values !! "count")
           | None => mret EmptyString
           end;
  mret (mkFiles data (summary_record stdout checkRate iterations)).

End Summary.



End OverflowSummary.

(** ** The fast-typing scenario *)

(** The wall clock of the script: [new Date().getTime()] reads it in
    milliseconds, [sleep(s)] lets [s] seconds or more pass. *)
Class Clock : Type := {
  world : Type;
  getTime : world -> Z * world;
  sleep : Q -> world -> world
}.

Module FastTyping.
Import Str K6.

Definition thresholds : list threshold :=
  [ mkThreshold "checks" "rate" Gt 0.95%Q;
    mkThreshold "http_req_duration" "p(95)" Lt 2000%Q ].

Section Scenario.

Context {K : Clock}.

(** The elapsed time [simulateRapidModeChange] measures from [w]. *)
Definition mode_change_duration (w : world) : Z :=
  let (startTime, w1) := getTime w in
  let (endTime, _) := getTime (sleep 0.05%Q (sleep 0.1%Q w1)) in
  endTime - startTime.

Definition simulateRapidModeChange (w : world) : string * world :=
  let (startTime, w1) := getTime w in
  let w2 := sleep 0.1%Q w1 in
  let w3 := sleep 0.05%Q w2 in
  let (endTime, w4) := getTime w3 in
  let duration := endTime - startTime in
  if duration <? 200 then ("LETHAL_OVERDOSE", w4) else ("SUCCESS", w4).

Definition simulateRapidEditing (w : world) : string * world :=
  let (editStart, w1) := getTime w in
  let w2 := sleep 0.02%Q (sleep 0.01%Q (sleep 0.02%Q w1)) in
  let (editEnd, w3) := getTime w2 in
  let editDuration := editEnd - editStart in
  if editDuration <? 100 then ("RACE_CONDITION_DETECTED", w3) else ("SUCCESS", w3).

Definition simulateFastSetup (w : world) : string * world :=
  let (setupStart, w1) := getTime w in
  let w2 := sleep 0.02%Q (sleep 0.05%Q (sleep 0.1%Q w1)) in
  let (setupEnd, w3) := getTime w2 in
  let setupDuration := setupEnd - setupStart in
  if setupDuration <? 180 then ("FAST_OPERATOR_DETECTED", w3) else ("SUCCESS", w3).

Definition mode_change_checks : list (string * (string -> bool)) :=
  [ ("No lethal overdose in mode change", fun r => negb (includes r "LETHAL"));
    ("No accidents in rapid typing", fun r => negb (includes r "OVERDOSE")) ].

Definition editing_checks : list (string * (string -> bool)) :=
  [ ("Edit race condition handled",
      fun r => (includes r "SUCCESS" || includes r "SAFETY")%bool) ].

Definition setup_checks : list (string * (string -> bool)) :=
  [ ("Fast setup completed safely", fun r => negb (includes r "ERROR")) ].

(** The default function: the samples of its three [check] calls, in
    order, and the world it leaves. *)
Definition default (w : world) : list (string * bool) * world :=
  let (result1, w1) := simulateRapidModeChange w in
  let samples1 := check result1 mode_change_checks in
  let w2 := sleep 0.5%Q w1 in
  let (result2, w3) := simulateRapidEditing w2 in
  let samples2 := check result2 editing_checks in
  let w4 := sleep 0.3%Q w3 in
  let (result3, w5) := simulateFastSetup w4 in
  let samples3 := check result3 setup_checks in
  (samples1 ++ samples2 ++ samples3, w5).

End Scenario.

End FastTyping.

(** ** The threshold evaluator *)

Module ThresholdEvaluator.
Import K6.

(** A metrics snapshot holds the aggregates of the run by name; this is
    the name of the aggregate a threshold speaks of, as in ["checks.rate"]. *)
Definition metric_key (t : threshold) : string :=
  metric_name t +:+ "." +:+ aggregation t.

Definition holds (c : comparator) (v b : Q) : bool :=
  match c with
  | Gt => negb (Qle_bool v b)
  | Lt => negb (Qle_bool b v)
  | Ge => Qle_bool b v
  | Le => Qle_bool v b
  | EqC => Qeq_bool v b
  end.

Record verdict : Type := mkVerdict {
  pass : bool;
  failures : list (threshold * string)
}.

(** Modelled from the spec: the evaluator of thresholds is the test
    runner's and is not among the sources, which only declare the
    thresholds.  A threshold fails if its comparator against the named
    metric does not hold; a metric missing from the snapshot is a failure
    with a reason that names it. *)
Definition violation (snapshot : gmap string Q) (t : threshold) : option string :=
  match snapshot !! metric_key t with
  | None => Some ("metric " +:+ metric_key t +:+ " is missing from the snapshot")
  | Some v =>
      if holds (cmp t) v (bound t) then None
      else Some ("threshold on " +:+ metric_key t +:+ " does not hold")
  end.

(** Modelled from the spec: [evaluate(snapshot, thresholds)] returns the
    verdict and the violated thresholds; the evaluator itself is not among
    the sources.  The verdict is the conjunction over all thresholds. *)
Definition evaluate (snapshot : gmap string Q) (thresholds : list threshold)
  : verdict :=
  let failed :=
    omap (fun t => match violation snapshot t with
                   | Some reason => Some (t, reason)
                   | None => None
                   end) thresholds in
  mkVerdict (match failed with [] => true | _ => false end) failed.

End ThresholdEvaluator.

(** ** A target with an 8-bit counter *)

Module CounterTarget.

Record state : Type := mkState {
  counter : Z;
  dose : Z
}.

(** Modelled from the spec: the target's control module is not among the
    sources.  Its setup counter is a fixed-width unsigned integer that
    increments on each setup operation and wraps to zero; a setup is
    validated against a dose limit, and [gate_off_at_zero] says whether
    the validation is skipped for a setup that finds the counter at zero. *)
Definition setup (limit : Z) (gate_off_at_zero : bool) (d x y : Z) (s : state)
  : bool * state :=
  let n := (counter s + 1) mod 256 in
  if ((d <=? limit) || (gate_off_at_zero && (counter s =? 0)))%bool
  then (true, mkState n d)
  else (false, mkState n (dose s)).

#[local] Instance target (limit : Z) (gate_off_at_zero : bool) : ControlModule := {|
  machine := state;
  outcome := bool;
  truthy := fun b => b;
  new_module := fun _ => mkState 0 0;
  setup_treatment := setup limit gate_off_at_zero;
  setup_counter := counter;
  dose_value := dose
|}.

(** The module whose validation is switched off by the wraparound. *)
Definition buggy : ControlModule := target 1000 true.

(** The module that keeps validating. *)
Definition sound : ControlModule := target 1000 false.

(** A clock on which sleeping takes exactly as long as asked, and one on
    which every sleep overruns by [late] milliseconds. *)
Definition clock (late : Z) : Clock := {|
  world := Z;
  getTime := fun w => (w, w);
  sleep := fun s w => w + Qceiling (s * 1000) + late
|}.



End CounterTarget.

(** ** Characters of a token *)

Module Chars.

(** Every character of the string satisfies [P]. *)
Fixpoint all_chars (P : ascii -> bool) (s : string) : bool :=
  match s with
  | EmptyString => true
  | String a t => (P a && all_chars P t)%bool
  end.

(** Any character but [a]. *)
Definition other_than (a : ascii) : ascii -> bool :=
  fun b => negb (Ascii.eqb a b).

Definition not_white : ascii -> bool := fun a => negb (Str.is_white a).

(** A byte that can belong to white space: a white space of one byte, or a
    byte of a character of several bytes. *)
Definition strippable (a : ascii) : bool :=
  (Str.is_white a || Nat.ltb 127 (nat_of_ascii a))%bool.

(** A word of visible ASCII characters: [trim] cannot touch it. *)
Definition sturdy (kw : string) : bool :=
  (negb (String.eqb kw EmptyString)
   && all_chars (fun a => negb (strippable a)) kw)%bool.

(** A marker the scripts search a token for: not empty, and free of
    colons, of line breaks and of white space. *)
Definition marker (kw : string) : bool :=
  (negb (String.eqb kw EmptyString)
   && all_chars (other_than ":"%char) kw
   && all_chars (other_than "010"%char) kw
   && all_chars not_white kw)%bool.

End Chars.

(** ** What the counter model fixes of a run of the driver *)

Module DriverTrace.
Import StressOverflow.

(** The counter of the module, the critical points, the overflow flag and
    the last read: the part of the driver's state that does not depend on
    which setups the target accepts. *)
Record trace : Type := mkTrace {
  counter : Z;
  points : list (Z * Z);
  overflow : bool;
  read : option Z
}.

Definition trace_of {T : ControlModule} (d : driver) : trace :=
  mkTrace (setup_counter (c d)) (critical_points d) (overflow_detected d)
    (current_counter d).

(** One patient on a target with an 8-bit counter: the patient's setup
    advances the counter, and so does the safety test when it is made. *)
Definition trace_step (patient : Z) (t : trace) : trace :=
  let n := (counter t + 1) mod 256 in
  let pts := points t ++ (if bool_decide (n ∈ window) then [(patient, n)] else []) in
  if wraps patient n
  then mkTrace ((n + 1) mod 256) pts true (Some n)
  else mkTrace n pts (overflow t) (Some n).

Definition trace_start : trace := mkTrace 0 [] false None.

End DriverTrace.

(** ** Lines without an underscore *)

Module Lines.
Import Chars.

(** The three markers of the overflow scenario all hold an underscore; the
    lines the driver prints before its summary line hold none. *)
Definition plain (line : string) : bool := all_chars (other_than "_"%char) line.

End Lines.

(** ** The specific overflow scenarios *)

Module SpecificScenarios.
Import Str K6 StressOverflow.

(** The Python program of [testSpecificOverflowScenarios]. *)
Definition command : string :=
  "cd /app && python -c " +:+ dq +:+ nl +:+
"from src.simulator.control_module import ControlModule
import time

scenarios = []

# Test scenario 1: Exactly at limit (255)
print('Testing counter at 255...')
c1 = ControlModule('buggy')
for i in range(255):
    c1.setup_treatment(100, 0, 0)

scenarios.append(('AT_LIMIT', c1.setup_counter, c1.setup_treatment(100, 0, 0)))

# Test scenario 2: Overflow to 0
print('Testing overflow to 0...')
c2 = ControlModule('buggy')
for i in range(256):
    c2.setup_treatment(100, 0, 0)

# Try invalid dose when counter = 0
invalid_dose_accepted = c2.setup_treatment(50000, 0, 0)
scenarios.append(('OVERFLOW_0', c2.setup_counter, invalid_dose_accepted))

# Test scenario 3: After overflow
print('Testing after overflow...')
c3 = ControlModule('buggy')
for i in range(257):
    c3.setup_treatment(100, 0, 0)

scenarios.append(('AFTER_OVERFLOW', c3.setup_counter, True))

for scenario, counter, result in scenarios:
    print(f'{scenario}:COUNTER_{counter}:RESULT_{result}')

print('SPECIFIC_TESTS_COMPLETED')
" +:+ dq.

Section Program.

Context {T : ControlModule}.

(** [str(outcome)], as an f-string prints an outcome of the target. *)
Variable str_outcome : outcome -> string.

Definition str_result (r : scenario_result) : string :=
  match r with
  | FromTarget o => str_outcome o
  | PyTrue => "True"
  end.

(** [f'{scenario}:COUNTER_{counter}:RESULT_{result}'] *)
Definition scenario_line (s : string * Z * scenario_result) : string :=
  fst (fst s) +:+ ":COUNTER_" +:+ num (snd (fst s))
  +:+ ":RESULT_" +:+ str_result (snd s).

(** The lines of the program, in the order it prints them. *)
Definition lines : list string :=
  [ "Testing counter at 255...";
    "Testing overflow to 0...";
    "Testing after overflow..." ]
  ++ map scenario_line scenarios
  ++ [ "SPECIFIC_TESTS_COMPLETED" ].

Definition specific_stdout : string :=
  fold_right (fun line out => line +:+ nl +:+ out) EmptyString lines.

End Program.

Section Script.

Variable require_child_process : completion execSync_t.

Definition testSpecificOverflowScenarios : completion string :=
  try_catch
    (execSync ← require_child_process;
     result ← execSync command (mkExecOptions "utf8" 30000 None);
     mret (trim result))
    (fun message => mret ("SPECIFIC_ERROR: " +:+ message)).

End Script.

End SpecificScenarios.

(** ** Clocks *)

Module ClockLaws.

(** A clock that reading does not advance, and on which a sleep of [s]
    seconds overruns its [s * 1000] milliseconds by [lo] to [hi]
    milliseconds; [now] is what it reads in a world. *)
Record overruns (K : Clock) (now : world -> Z) (lo hi : Z) : Prop := {
  read_now : forall w, getTime w = (now w, w);
  sleep_now : forall s w,
    now w + Qceiling (s * 1000) + lo <= now (sleep s w)
    <= now w + Qceiling (s * 1000) + hi
}.

(** The elapsed time [simulateRapidEditing] measures from [w]. *)
Definition editing_duration {K : Clock} (w : world) : Z :=
  let (editStart, w1) := getTime w in
  let (editEnd, _) := getTime (sleep 0.02%Q (sleep 0.01%Q (sleep 0.02%Q w1))) in
  editEnd - editStart.

(** The world in which the default function of the fast-typing scenario
    starts its second simulation. *)
Definition editing_world {K : Clock} (w : world) : world :=
  sleep 0.5%Q (snd (FastTyping.simulateRapidModeChange w)).

End ClockLaws.

(** ** The summaries of the other two scenarios *)

(** The summaries log lines that hold numbers; how the runtime prints a
    number is left to it: [show n] stands for [`${n}`] and
    [toFixed n digits] for [n.toFixed(digits)]. *)

Module ConcurrentSummary.
Import Str OverflowSummary.

Section Host.

Variable show : Q -> string.
Variable toFixed : Q -> nat -> string.

(** [handleSummary(data)] of the concurrent-operations scenario, in a
    runtime where [raceConditionsDetected] holds the given value: the lines
    it logs and the files it returns. *)
Definition handleSummary (raceConditionsDetected : Z) (data : summary_data)
  : list string * summary_files :=
  let totalIterations := or_zero (metric_value data "iterations" "count") in
  let checkRate := or_zero (metric_value data "checks" "rate") in
  let avgDuration := or_zero (metric_value data "http_req_duration" "avg") in
  let log :=
    [ nl +:+ "👥 THERAC-25 CONCURRENT OPERATIONS TEST SUMMARY";
      "===============================================";
      "Total concurrent sessions: " +:+ show totalIterations;
      "Race conditions detected: " +:+ num raceConditionsDetected;
      "Safety check success rate: " +:+ toFixed (checkRate * 100)%Q 1%nat +:+ "%";
      "Average operation time: " +:+ toFixed avgDuration 0%nat +:+ "ms" ]
    ++ (if raceConditionsDetected >? 0
        then [ "⚠️ RACE CONDITIONS DETECTED!";
               "🔧 Proper synchronization (mutexes, locks) would prevent this." ]
        else [])
    ++ (if negb (Qle_bool 0.95 checkRate)
        then [ "💀 SAFETY FAILURES DETECTED!";
               "🔧 Comprehensive testing would have caught these bugs." ]
        else []) in
  (log,
   mkFiles data
     (JObj
        [ ("test_type", JStr "concurrent_operations");
          ("race_conditions", JNum (inject_Z raceConditionsDetected));
          ("safety_success_rate", JNum checkRate);
          ("total_sessions", JNum totalIterations);
          ("avg_duration_ms", JNum avgDuration) ])).

End Host.

End ConcurrentSummary.

Module FastTypingSummary.
Import Str OverflowSummary.

(** One entry of [data.checks]. *)
Record check_result : Type := mkCheckResult {
  name : string;
  passes : Z;
  fails : Z
}.

(** The data handed to [handleSummary]: the values of [data.checks] when
    there is such an object, and [data.metrics]. *)
Record summary_input : Type := mkInput {
  checks : option (list check_result);
  metrics : summary_data
}.

(** [check.name.includes('lethal') || check.name.includes('overdose')] *)
Definition names_accident (check : check_result) : bool :=
  (includes (name check) "lethal" || includes (name check) "overdose")%bool.

(** [data.checks ? Object.values(data.checks).filter(...).length : 0] *)
Definition accidents (data : summary_input) : Z :=
  match checks data with
  | Some values => Z.of_nat (length (List.filter names_accident values))
  | None => 0
  end.

Section Host.

Variable show : Q -> string.

Definition handleSummary (data : summary_input)
  : list string * (summary_input * json) :=
  let rate := metric_value (metrics data) "checks" "rate" in
  let count := or_zero (metric_value (metrics data) "iterations" "count") in
  let log :=
    [ nl +:+ "🏥 THERAC-25 FAST TYPING TEST SUMMARY";
      "=====================================";
      "Total VU iterations: " +:+ show count;
      "Potential accidents detected: " +:+ num (accidents data);
      "Check success rate: "
        +:+ show (or_zero ((fun r => (r * 100)%Q) <$> rate)) +:+ "%" ]
    ++ (if accidents data >? 0
        then [ "💀 CRITICAL: Fast typing exposed dangerous conditions!";
               "🔧 Modern UI delays and validation would prevent this." ]
        else [ "✅ No accidents detected in fast typing scenario" ]) in
  (log,
   (data,
    JObj
      [ ("test_type", JStr "fast_typing");
        ("accidents_detected", JNum (inject_Z (accidents data)));
        ("success_rate", JNum (or_zero rate));
        ("iterations", JNum count) ])).

End Host.

(** The names under which the fast-typing scenario records its checks. *)
Definition recorded_names : list string :=
  map fst (FastTyping.mode_change_checks ++ FastTyping.editing_checks
           ++ FastTyping.setup_checks).

End FastTypingSummary.

(** ** An invariant of the driver *)

Module DriverInvariant.
Import StressOverflow.

(** No bypass without a wraparound, no wraparound without a critical point
    at counter 0, and every bypass belongs to a patient beyond 255 for whom
    the driver read 0. *)
Definition coherent {T : ControlModule} (d : driver) : Prop :=
  (overflow_detected d = true ->
     existsb (fun point => snd point =? 0) (critical_points d) = true)
  /\ (forall patient, patient ∈ safety_bypasses d ->
        overflow_detected d = true
        /\ 255 < patient
        /\ (patient, 0) ∈ critical_points d).

End DriverInvariant.

(** * Properties *)

(** ** Substring matching *)

Section Matching.
Import Str.

Lemma prefix_occurs (kw s : string) :
  String.prefix kw s = true <-> exists post : string, s = kw +:+ post.
Proof.
  revert s; induction kw as [|a kw IH]; intros s; simpl.
  - destruct s; split; eauto.
  - destruct s as [|b s]; simpl.
    + split; [discriminate | intros [post H]; discriminate].
    + destruct (ascii_dec a b) as [->|Hne].
      * rewrite IH. split; intros [post H]; exists post.
        -- now rewrite H.
        -- now inversion H.
      * split; [discriminate | intros [post H]; inversion H; congruence].
Qed.

Lemma includes_unfold (s kw : string) :
  includes s kw =
    if String.prefix kw s then true
    else match s with
         | EmptyString => false
         | String _ t => includes t kw
         end.
Proof. destruct s; reflexivity. Qed.

Lemma includes_occurs (s kw : string) :
  includes s kw = true <-> occurs_in kw s.
Proof.
  split.
  - induction s as [|a s IH]; rewrite includes_unfold;
      destruct (String.prefix kw _) eqn:E;
      try (intros _; apply prefix_occurs in E as [post E];
           exists EmptyString, post; exact E).
    + discriminate.
    + intros H. destruct (IH H) as (pre & post & ->).
      exists (String a pre), post. reflexivity.
  - intros (pre & post & ->).
    induction pre as [|a pre IH].
    + change (EmptyString +:+ kw +:+ post) with (kw +:+ post).
      assert (E : String.prefix kw (kw +:+ post) = true)
        by (apply prefix_occurs; eauto).
      rewrite includes_unfold. now rewrite E.
    + change (String a pre +:+ kw +:+ post) with (String a (pre +:+ kw +:+ post)).
      rewrite includes_unfold. lazy beta iota.
      rewrite IH. now destruct (String.prefix _ _).
Qed.

Lemma includes_absent (s kw : string) :
  includes s kw = false <-> ~ occurs_in kw s.
Proof.
  rewrite <- includes_occurs. now destruct (includes s kw).
Qed.

End Matching.

(** ** The concurrent-operations scenario *)

Section ConcurrentOperationsFacts.
Import Str K6 ConcurrentOperations.

Lemma negb_true_false (b : bool) (P : Prop) :
  (b = true <-> P) -> (negb b = false <-> P).
Proof. destruct b; simpl; intuition congruence. Qed.

Lemma executeWorkflow_returns (rcp : completion execSync_t)
  (workflow : option string) (vuId : Z) :
  exists token : string, executeWorkflow rcp workflow vuId = Normal token.
Proof.
  unfold executeWorkflow.
  destruct (run_arm rcp (switch_arm workflow) vuId) as [out|m]; simpl; eauto.
Qed.

Lemma error_token_marked (tail : string) :
  includes ("ERROR" +:+ tail) "ERROR" = true.
Proof. apply includes_occurs. exists EmptyString, tail. reflexivity. Qed.

Lemma rem_is_index (vuId : Z) :
  0 <= vuId ->
  Z.rem vuId (Z.of_nat (length workflows)) = vuId mod Z.of_nat (length workflows)
  /\ 0 <= vuId mod Z.of_nat (length workflows) < 5.
Proof.
  intros H. change (Z.of_nat (length workflows)) with 5.
  rewrite Z.rem_mod_nonneg by lia.
  split; [reflexivity | apply Z.mod_pos_bound; lia].
Qed.

Lemma dispatch_index (vuId : Z) :
  0 <= vuId ->
  exists i : nat,
    (i < length workflows)%nat /\ getWorkflowForOperator vuId = workflows !! i.
Proof.
  intros H. destruct (rem_is_index vuId H) as [Hrem Hr].
  exists (Z.to_nat (vuId mod Z.of_nat (length workflows))). split.
  - change (Z.of_nat (length workflows)) with 5 in *.
    change (length workflows) with 5%nat. lia.
  - unfold getWorkflowForOperator, js_index. rewrite Hrem.
    destruct (Z.ltb_spec (vuId mod Z.of_nat (length workflows)) 0);
      [lia | reflexivity].
Qed.

(** C3: the default function matches permissively.  A check of the battery
    fails exactly when its hazard keyword occurs somewhere in the outcome
    token, and the race counter advances exactly when RACE or CONFLICT
    occurs in it; the token SUCCESS, and every token in which no hazard
    keyword occurs, passes every check and leaves the counter alone; and
    the iteration returns for every token instead of throwing. *)
Theorem classifier_permissive_matching
  (rcp : completion execSync_t) (result : string) (n vuId : Z) :
  let samples := fst (classify result n) in
  let count := snd (classify result n) in
  (exists lethal overdose critical inconsistent : bool,
      samples = [ ("No lethal conditions", negb lethal);
                  ("No overdose conditions", negb overdose);
                  ("No critical errors", negb critical);
                  ("State consistency maintained", negb inconsistent) ]
      /\ (lethal = true <-> occurs_in "LETHAL" result)
      /\ (overdose = true <-> occurs_in "OVERDOSE" result)
      /\ (critical = true <-> occurs_in "CRITICAL_ERROR" result)
      /\ (inconsistent = true <-> occurs_in "INCONSISTENT" result))
  /\ (count = n + 1 <-> occurs_in "RACE" result \/ occurs_in "CONFLICT" result)
  /\ (count = n <-> ~ (occurs_in "RACE" result \/ occurs_in "CONFLICT" result))
  /\ classify "SUCCESS" n = (clean_samples, n)
  /\ ((forall kw, kw ∈ hazard_keywords -> ~ occurs_in kw result) ->
      classify result n = (clean_samples, n))
  /\ (exists out, default rcp vuId n = Normal out).
Proof.
  cbv zeta. unfold classify. cbn [fst snd].
  assert (Hrace : (includes result "RACE" || includes result "CONFLICT")%bool = true
                  <-> occurs_in "RACE" result \/ occurs_in "CONFLICT" result).
  { rewrite orb_true_iff, !includes_occurs. reflexivity. }
  repeat split.
  - exists (includes result "LETHAL"), (includes result "OVERDOSE"),
      (includes result "CRITICAL_ERROR"), (includes result "INCONSISTENT").
    split; [reflexivity|]. repeat split; apply includes_occurs.
  - destruct (_ || _)%bool; [intros _; now apply Hrace | lia].
  - intros H. apply Hrace in H. now rewrite H.
  - destruct (_ || _)%bool; [lia | intros _ H; apply Hrace in H; discriminate].
  - intros H. destruct (_ || _)%bool; [|reflexivity].
    exfalso. apply H, Hrace. reflexivity.
  - intros Hclean.
    assert (Hno : forall kw, kw ∈ hazard_keywords -> includes result kw = false).
    { intros kw Hkw. apply includes_absent, Hclean, Hkw. }
    unfold check, checks, clean_samples. cbn [map fst snd].
    rewrite !Hno by (unfold hazard_keywords; repeat constructor).
    reflexivity.
  - unfold default.
    destruct (executeWorkflow_returns rcp (getWorkflowForOperator vuId) vuId)
      as [token ->].
    eexists. reflexivity.
Qed.

(** C4: dispatch is the specification's pure function of the VU identity.
    For a non-negative [vuId] the script's lookup is
    [catalogue[vu_id mod len(catalogue)]] on its fixed catalogue, and two
    calls with the same [vuId] return the same descriptor. *)
Theorem dispatch_is_catalogue_modulo (vuId : Z) :
  0 <= vuId ->
  getWorkflowForOperator vuId = workflow_for workflows vuId
  /\ forall again : Z, again = vuId ->
       getWorkflowForOperator again = getWorkflowForOperator vuId.
Proof.
  intros H. split; [|intros again ->; reflexivity].
  unfold getWorkflowForOperator, workflow_for, js_index.
  destruct (rem_is_index vuId H) as [-> Hr].
  destruct (Z.ltb_spec (vuId mod Z.of_nat (length workflows)) 0); [lia|reflexivity].
Qed.

Lemma dispatch_is_catalogue_modulo_witness :
  0 <= 7
  /\ getWorkflowForOperator 7 = Some "emergency_rapid"
  /\ getWorkflowForOperator 7 = workflow_for workflows 7
  /\ forall again : Z, again = 7 ->
       getWorkflowForOperator again = getWorkflowForOperator 7.
Proof.
  split; [lia|]. split; [reflexivity|].
  apply (dispatch_is_catalogue_modulo 7). lia.
Defined.

(** C5: a workflow execution turns an exception into an outcome token.
    [executeWorkflow] always returns: when the selected workflow throws, the
    token is [ERROR_<workflow>: <message>], which carries the ERROR marker,
    and otherwise it is the workflow's own token.  The overflow driver's
    script does the same with [ERROR: <message>], whether the module cannot
    be loaded or the child process fails. *)
Theorem workflow_exceptions_become_tokens
  (rcp : completion execSync_t) (workflow : option string) (vuId : Z) :
  (exists token, executeWorkflow rcp workflow vuId = Normal token)
  /\ (forall message,
        run_arm rcp (switch_arm workflow) vuId = Throw message ->
        executeWorkflow rcp workflow vuId
          = Normal ("ERROR_" +:+ template_of workflow +:+ ": " +:+ message)
        /\ includes ("ERROR_" +:+ template_of workflow +:+ ": " +:+ message)
             "ERROR" = true)
  /\ (forall out,
        run_arm rcp (switch_arm workflow) vuId = Normal out ->
        executeWorkflow rcp workflow vuId = Normal out)
  /\ (exists token, StressOverflow.performOverflowTest rcp = Normal token)
  /\ (forall message,
        rcp = Throw message ->
        StressOverflow.performOverflowTest rcp = Normal ("ERROR: " +:+ message))
  /\ (forall execSync message,
        rcp = Normal execSync ->
        execSync StressOverflow.command
          (mkExecOptions "utf8" 120000 (Some (1024 * 1024))) = Throw message ->
        StressOverflow.performOverflowTest rcp = Normal ("ERROR: " +:+ message)
        /\ includes ("ERROR: " +:+ message) "ERROR" = true).
Proof.
  split; [apply executeWorkflow_returns|].
  split.
  { intros message H. split.
    - unfold executeWorkflow. rewrite H. reflexivity.
    - apply (error_token_marked
               ("_" +:+ template_of workflow +:+ ": " +:+ message)). }
  split.
  { intros out H. unfold executeWorkflow. rewrite H. reflexivity. }
  split.
  { unfold StressOverflow.performOverflowTest.
    destruct rcp as [execSync|m]; simpl; [|eauto].
    destruct (execSync _ _); simpl; eauto. }
  split.
  { intros message ->. reflexivity. }
  intros execSync message -> H. split.
  - unfold StressOverflow.performOverflowTest. simpl. rewrite H. reflexivity.
  - apply (error_token_marked (": " +:+ message)).
Qed.

(** C10: for a non-negative [vuId] the dispatch returns one of the five
    names of the catalogue, and on that name the [switch] of
    [executeWorkflow] selects one of the five catalogued workflows, never
    the default arm. *)
Theorem dispatch_stays_in_catalogue (vuId : Z) :
  0 <= vuId ->
  exists name : string,
    getWorkflowForOperator vuId = Some name
    /\ name ∈ workflows
    /\ switch_arm (Some name) <> StandardWorkflow
    /\ forall rcp : completion execSync_t,
         executeWorkflow rcp (getWorkflowForOperator vuId) vuId
         = try_catch (run_arm rcp (switch_arm (Some name)) vuId)
             (fun message => mret ("ERROR_" +:+ name +:+ ": " +:+ message)).
Proof.
  intros H.
  destruct (dispatch_index vuId H) as (i & Hi & Hget).
  rewrite Hget.
  do 5 (destruct i as [|i];
        [ eexists; split; [reflexivity|];
          split; [unfold workflows; repeat constructor|];
          split; [vm_compute; discriminate | intros rcp; reflexivity] |]).
  simpl in Hi. lia.
Qed.

Lemma dispatch_stays_in_catalogue_witness :
  0 <= 7
  /\ exists name : string,
       getWorkflowForOperator 7 = Some name
       /\ name ∈ workflows
       /\ switch_arm (Some name) <> StandardWorkflow
       /\ forall rcp : completion execSync_t,
            executeWorkflow rcp (getWorkflowForOperator 7) 7
            = try_catch (run_arm rcp (switch_arm (Some name)) 7)
                (fun message => mret ("ERROR_" +:+ name +:+ ": " +:+ message)).
Proof.
  split; [lia|]. apply (dispatch_stays_in_catalogue 7). lia.
Defined.

Example classify_composite_token :
  classify "EDITING_4:LETHAL_OVERDOSE|RACE" 2
  = ([ ("No lethal conditions", false);
       ("No overdose conditions", false);
       ("No critical errors", true);
       ("State consistency maintained", true) ], 3)
  /\ classify "ERROR_new_cautious: spawn ETIMEDOUT" 2 = (clean_samples, 2).
Proof. vm_compute. split; reflexivity. Qed.

End ConcurrentOperationsFacts.

(** ** The overflow stress driver *)

Section DriverFacts.
Import Str K6 StressOverflow.

Context {T : ControlModule}.

Ltac body_cases :=
  match goal with d : driver |- _ => destruct d end;
  cbv [loop_body report_progress test_overflow test_safety track_critical
         setup_patient print c critical_points safety_bypasses
         overflow_detected current_counter printed];
  repeat (case_match; cbn [andb orb] in *);
  rewrite ?app_nil_r, ?orb_true_r, ?orb_false_r;
  try reflexivity; try congruence.

Lemma loop_body_counter (patient : Z) (d : driver) :
  current_counter (loop_body patient d)
  = Some (setup_counter (patient_setup patient (c d))).
Proof. body_cases. Qed.

Lemma loop_body_points (patient : Z) (d : driver) :
  let counter := setup_counter (patient_setup patient (c d)) in
  critical_points (loop_body patient d)
  = critical_points d
    ++ (if bool_decide (counter ∈ window) then [(patient, counter)] else []).
Proof. cbv zeta. body_cases. Qed.

Lemma loop_body_overflow (patient : Z) (d : driver) :
  overflow_detected (loop_body patient d)
  = (overflow_detected d
     || wraps patient (setup_counter (patient_setup patient (c d))))%bool.
Proof. body_cases. Qed.

Lemma loop_body_machine (patient : Z) (d : driver) :
  let c1 := patient_setup patient (c d) in
  c (loop_body patient d)
  = if wraps patient (setup_counter c1)
    then snd (setup_treatment 99999 0 0 c1)
    else c1.
Proof. cbv zeta. body_cases. Qed.

Lemma loop_body_bypasses (patient : Z) (d : driver) :
  let c1 := patient_setup patient (c d) in
  let safety_test := setup_treatment 99999 0 0 c1 in
  safety_bypasses (loop_body patient d)
  = safety_bypasses d
    ++ (if (wraps patient (setup_counter c1) && truthy (fst safety_test)
            && (dose_value (snd safety_test) =? 99999))%bool
        then [patient] else []).
Proof. cbv zeta. body_cases. Qed.

Lemma python_range_snoc (k : nat) :
  python_range 1 (1 + Z.of_nat (S k))
  = python_range 1 (1 + Z.of_nat k) ++ [Z.of_nat (S k)].
Proof.
  unfold python_range.
  replace (Z.to_nat (1 + Z.of_nat (S k) - 1)) with (S k) by lia.
  replace (Z.to_nat (1 + Z.of_nat k - 1)) with k by lia.
  rewrite seq_S, map_app. cbn [map]. do 2 f_equal. lia.
Qed.

Lemma after_patients_zero : after_patients 0 = start.
Proof. reflexivity. Qed.

Lemma after_patients_succ (k : nat) :
  after_patients (Z.of_nat (S k))
  = loop_body (Z.of_nat (S k)) (after_patients (Z.of_nat k)).
Proof.
  unfold after_patients, run_patients.
  rewrite python_range_snoc, fold_left_app. reflexivity.
Qed.

Lemma loop_end_after_300 : loop_end = after_patients 300.
Proof. reflexivity. Qed.

Lemma setups_counter (H8 : eight_bit_counter T) (n : nat) (version : string) :
  setup_counter (setups n (new_module version)) = Z.of_nat n mod 256.
Proof.
  induction n as [|n IH].
  - simpl. apply (counter_fresh T H8).
  - unfold setups in *. simpl Nat.iter.
    rewrite (counter_step T H8), IH, Zplus_mod_idemp_l.
    f_equal. lia.
Qed.

(** Up to patient 255 the driver has made one setup per patient and has
    seen no wraparound. *)
Lemma before_wraparound (H8 : eight_bit_counter T) (k : nat) :
  (k <= 255)%nat ->
  c (after_patients (Z.of_nat k))
  = fold_left (fun m patient => patient_setup patient m)
      (python_range 1 (1 + Z.of_nat k)) (new_module "buggy")
  /\ setup_counter (c (after_patients (Z.of_nat k))) = Z.of_nat k
  /\ overflow_detected (after_patients (Z.of_nat k)) = false
  /\ safety_bypasses (after_patients (Z.of_nat k)) = [].
Proof.
  induction k as [|k IH]; intros Hk.
  - change (Z.of_nat 0) with 0. rewrite after_patients_zero.
    repeat split; try reflexivity. apply (counter_fresh T H8).
  - destruct IH as (Hc & Hn & Ho & Hb); [lia|].
    assert (Hnext : setup_counter
                      (patient_setup (Z.of_nat (S k)) (c (after_patients (Z.of_nat k))))
                    = Z.of_nat (S k)).
    { unfold patient_setup. rewrite (counter_step T H8), Hn.
      rewrite Z.mod_small; lia. }
    assert (Hw : wraps (Z.of_nat (S k)) (Z.of_nat (S k)) = false).
    { unfold wraps. destruct (Z.eqb_spec (Z.of_nat (S k)) 0); [lia|reflexivity]. }
    rewrite after_patients_succ.
    rewrite loop_body_machine, loop_body_overflow, loop_body_bypasses.
    cbv zeta. rewrite !Hnext, !Hw, Ho, Hb. cbn [andb orb app].
    repeat split; try assumption.
    rewrite python_range_snoc, fold_left_app, <- Hc. reflexivity.
Qed.

Lemma overflow_sticks (k : nat) :
  overflow_detected (after_patients (Z.of_nat k)) = true ->
  overflow_detected (after_patients (Z.of_nat (S k))) = true.
Proof.
  intros H. rewrite after_patients_succ, loop_body_overflow, H. reflexivity.
Qed.

Lemma wraparound_at_256 (H8 : eight_bit_counter T) :
  current_counter (after_patients 256) = Some 0
  /\ overflow_detected (after_patients 256) = true.
Proof.
  destruct (before_wraparound H8 255) as (_ & Hn & _); [lia|].
  change 256 with (Z.of_nat 256).
  rewrite (after_patients_succ 255), loop_body_counter, loop_body_overflow.
  assert (Hzero : setup_counter
                    (patient_setup (Z.of_nat 256) (c (after_patients (Z.of_nat 255)))) = 0).
  { unfold patient_setup. rewrite (counter_step T H8), Hn. reflexivity. }
  rewrite Hzero. split; [reflexivity | apply orb_true_r].
Qed.

Lemma wraparound_from_256 (H8 : eight_bit_counter T) (k : nat) :
  (256 <= k)%nat -> overflow_detected (after_patients (Z.of_nat k)) = true.
Proof.
  induction 1 as [|k Hk IH].
  - apply (wraparound_at_256 H8).
  - apply overflow_sticks, IH.
Qed.

(** The pairs the driver has collected after [k] patients are the pairs of
    a patient up to [k] and the counter read for that patient, for the
    reads that fall in the window. *)
Lemma critical_points_after (k : nat) (patient counter : Z) :
  (patient, counter) ∈ critical_points (after_patients (Z.of_nat k))
  <-> 1 <= patient <= Z.of_nat k
      /\ current_counter (after_patients patient) = Some counter
      /\ counter ∈ window.
Proof.
  induction k as [|k IH].
  - change (Z.of_nat 0) with 0. rewrite after_patients_zero.
    cbn [critical_points start].
    split; [intros H; inversion H | lia].
  - rewrite after_patients_succ, loop_body_points. cbv zeta.
    rewrite elem_of_app, IH.
    pose proof (loop_body_counter (Z.of_nat (S k)) (after_patients (Z.of_nat k)))
      as Hread.
    rewrite <- after_patients_succ in Hread.
    set (read := setup_counter _) in *.
    split.
    + intros [(Hp & Hc & Hw) | Hnew]; [repeat split; try assumption; lia|].
      case_bool_decide as Hin; [|inversion Hnew].
      apply list_elem_of_singleton in Hnew. inversion Hnew; subst.
      repeat split; try assumption; lia.
    + intros (Hp & Hc & Hw).
      destruct (Z.eq_dec patient (Z.of_nat (S k))) as [->|Hne].
      * right. rewrite Hread in Hc. inversion Hc; subst.
        rewrite bool_decide_eq_true_2 by assumption.
        apply list_elem_of_singleton. reflexivity.
      * left. repeat split; try assumption; lia.
Qed.

(** C1: under the 8-bit counter model, 255 setups leave the target's
    counter at 255 and 256 setups bring it back to 0.  The driver has made
    exactly one setup per patient when it has handled patient 255: it then
    reads 255 and has observed no wraparound; for patient 256 it reads 0 and
    observes the wraparound.  After [n] patients the wraparound has been
    observed exactly when [n] is at least 256, and one iteration raises the
    flag exactly when it reads 0 for a patient beyond 255. *)
Theorem wraparound_after_256_setups (H8 : eight_bit_counter T) :
  setup_counter (setups 255 (new_module "buggy")) = 255
  /\ setup_counter (setups 256 (new_module "buggy")) = 0
  /\ c (after_patients 255)
     = fold_left (fun m patient => patient_setup patient m)
         (python_range 1 256) (new_module "buggy")
  /\ current_counter (after_patients 255) = Some 255
  /\ wraparound_observed (after_patients 255) = false
  /\ current_counter (after_patients 256) = Some 0
  /\ wraparound_observed (after_patients 256) = true
  /\ (forall n : Z, 0 <= n ->
        (wraparound_observed (after_patients n) = true <-> 256 <= n))
  /\ wraparound_observed loop_end = true
  /\ (forall patient d,
        overflow_detected (loop_body patient d)
        = (overflow_detected d
           || ((setup_counter (patient_setup patient (c d)) =? 0)
               && (patient >? 255)))%bool).
Proof.
  destruct (before_wraparound H8 255) as (Hc & Hn & Ho & _); [lia|].
  destruct (before_wraparound H8 254) as (_ & Hn' & _); [lia|].
  destruct (wraparound_at_256 H8) as [Hread Hflag].
  split; [apply (setups_counter H8 255)|].
  split; [apply (setups_counter H8 256)|].
  split; [exact Hc|].
  split.
  { change 255 with (Z.of_nat 255) at 1.
    rewrite (after_patients_succ 254), loop_body_counter.
    unfold patient_setup. rewrite (counter_step T H8), Hn'. reflexivity. }
  split; [exact Ho|].
  split; [exact Hread|].
  split; [exact Hflag|].
  split.
  { intros n Hpos. unfold wraparound_observed.
    rewrite <- (Z2Nat.id n Hpos).
    destruct (le_lt_dec 256 (Z.to_nat n)) as [Hge|Hlt].
    - rewrite (wraparound_from_256 H8 _ Hge). split; [lia|reflexivity].
    - destruct (before_wraparound H8 (Z.to_nat n)) as (_ & _ & -> & _); [lia|].
      split; [discriminate|lia]. }
  split.
  { rewrite loop_end_after_300. apply (wraparound_from_256 H8 300). lia. }
  apply loop_body_overflow.
Qed.

(** C2: the safety test follows the wraparound at once.  In the iteration
    that reads counter 0 for a patient beyond 255 the driver makes one more
    setup, with dose 99999, on the module its patient setup left; the
    patient joins the bypass list exactly when that setup is accepted and
    the module's dose then equals 99999, so a bypass not yet observed
    becomes observed under exactly that condition.  In every other
    iteration no further setup is made and the bypass list is unchanged. *)
Theorem bypass_iff_invalid_dose_accepted (patient : Z) (d : driver) :
  let c1 := patient_setup patient (c d) in
  let safety_test := setup_treatment 99999 0 0 c1 in
  let accepted :=
    (truthy (fst safety_test) && (dose_value (snd safety_test) =? 99999))%bool in
  (wraps patient (setup_counter c1) = true <->
     setup_counter c1 = 0 /\ 255 < patient)
  /\ (wraps patient (setup_counter c1) = true ->
        c (loop_body patient d) = snd safety_test
        /\ overflow_detected (loop_body patient d) = true
        /\ safety_bypasses (loop_body patient d)
           = safety_bypasses d ++ (if accepted then [patient] else [])
        /\ (bypass_observed d = false ->
              (bypass_observed (loop_body patient d) = true <-> accepted = true)))
  /\ (wraps patient (setup_counter c1) = false ->
        c (loop_body patient d) = c1
        /\ overflow_detected (loop_body patient d) = overflow_detected d
        /\ safety_bypasses (loop_body patient d) = safety_bypasses d).
Proof.
  cbv zeta.
  pose proof (loop_body_machine patient d) as Hm.
  pose proof (loop_body_overflow patient d) as Ho.
  pose proof (loop_body_bypasses patient d) as Hb.
  cbv zeta in Hm, Hb.
  split.
  { unfold wraps. rewrite andb_true_iff, Z.eqb_eq, Z.gtb_gt. lia. }
  split; intros Hw; rewrite Hw in *; cbn [andb] in Hb.
  - rewrite Hm, Ho, orb_true_r.
    split; [reflexivity|]. split; [reflexivity|]. split; [exact Hb|].
    intros Hnone. unfold bypass_observed in *. rewrite Hb.
    destruct (safety_bypasses d); [|discriminate].
    destruct (_ && _)%bool; cbn [app]; split; congruence.
  - rewrite Hm, Ho, Hb, orb_false_r, app_nil_r. repeat split.
Qed.

(** C6, as amended: the driver records every read in the window.  For a
    patient between 1 and 300, the counter the driver reads after that
    patient's setup is paired with the patient in [critical_points] exactly
    when it is one of 253, 254, 255, 0, 1, 2; and every pair of
    [critical_points] is such a patient with the counter read for it. *)
Theorem critical_points_cover_window (patient counter : Z) :
  1 <= patient <= 300 ->
  current_counter (after_patients patient) = Some counter ->
  ((patient, counter) ∈ critical_points loop_end <-> counter ∈ window)
  /\ (forall p v, (p, v) ∈ critical_points loop_end ->
        1 <= p <= 300
        /\ current_counter (after_patients p) = Some v
        /\ v ∈ window).
Proof.
  intros Hp Hread. rewrite loop_end_after_300.
  pose proof (critical_points_after 300) as Hcp.
  change (Z.of_nat 300) with 300 in Hcp.
  split.
  - rewrite Hcp. intuition lia.
  - intros p v H. apply Hcp in H. exact H.
Qed.

End DriverFacts.

(** The sample targets follow the 8-bit counter model. *)
Lemma counter_target_eight_bit (limit : Z) (gate_off_at_zero : bool) :
  eight_bit_counter (CounterTarget.target limit gate_off_at_zero).
Proof.
  split.
  - reflexivity.
  - intros dose x y m. cbn. unfold CounterTarget.setup.
    destruct (_ || _)%bool; reflexivity.
Qed.

Lemma wraparound_after_256_setups_witness :
  eight_bit_counter CounterTarget.buggy
  /\ StressOverflow.wraparound_observed
       (@StressOverflow.after_patients CounterTarget.buggy 255) = false
  /\ StressOverflow.wraparound_observed
       (@StressOverflow.after_patients CounterTarget.buggy 256) = true.
Proof.
  pose proof (counter_target_eight_bit 1000 true) as H8.
  destruct (wraparound_after_256_setups (T := CounterTarget.buggy) H8)
    as (_ & _ & _ & _ & H255 & _ & H256 & _).
  split; [exact H8|]. split; [exact H255 | exact H256].
Defined.

Lemma critical_points_cover_window_witness :
  1 <= 256 <= 300
  /\ StressOverflow.current_counter
       (@StressOverflow.after_patients CounterTarget.buggy 256) = Some 0
  /\ (256, 0) ∈ StressOverflow.critical_points
                  (@StressOverflow.loop_end CounterTarget.buggy).
Proof.
  assert (Hread : StressOverflow.current_counter
                    (@StressOverflow.after_patients CounterTarget.buggy 256)
                  = Some 0) by (vm_compute; reflexivity).
  split; [lia|]. split; [exact Hread|].
  apply (critical_points_cover_window (T := CounterTarget.buggy) 256 0);
    [lia | exact Hread | unfold StressOverflow.window; repeat constructor].
Defined.

(** C6, as the specification has it, fails.  On a target with an 8-bit
    counter the safety test of patient 256 advances the counter from 0 to
    1, a value of the window, and the iteration ends on it; the driver does
    not read the counter again, so the pair of patient 256 with 1 is not
    among the critical points, and no patient after the first is paired
    with 1. *)
Lemma window_value_after_safety_test_unrecorded :
  eight_bit_counter CounterTarget.buggy
  /\ @setup_counter CounterTarget.buggy
       (StressOverflow.c (@StressOverflow.after_patients CounterTarget.buggy 256))
     = 1
  /\ 1 ∈ StressOverflow.window
  /\ ((256, 1) ∉ StressOverflow.critical_points
                   (@StressOverflow.loop_end CounterTarget.buggy))
  /\ StressOverflow.critical_points (@StressOverflow.loop_end CounterTarget.buggy)
     = [(1, 1); (2, 2); (253, 253); (254, 254); (255, 255); (256, 0); (257, 2)].
Proof.
  assert (Hpoints :
            StressOverflow.critical_points
              (@StressOverflow.loop_end CounterTarget.buggy)
            = [(1, 1); (2, 2); (253, 253); (254, 254); (255, 255); (256, 0);
               (257, 2)]) by (vm_compute; reflexivity).
  split; [apply counter_target_eight_bit|].
  split; [vm_compute; reflexivity|].
  split; [unfold StressOverflow.window; repeat constructor|].
  split; [|exact Hpoints].
  rewrite Hpoints. intros H.
  repeat (apply elem_of_cons in H as [H|H]; [discriminate H|]).
  inversion H.
Qed.

(** The driver against the two sample targets: the module whose gate the
    wraparound switches off accepts the dose 99999 at patient 256, the
    module that keeps validating does not; either way the counter value 1
    that follows the wraparound is consumed by the safety test. *)
Example driver_against_buggy :
  StressOverflow.safety_bypasses (@StressOverflow.loop_end CounterTarget.buggy)
    = [256]
  /\ StressOverflow.critical_points (@StressOverflow.loop_end CounterTarget.buggy)
     = [(1, 1); (2, 2); (253, 253); (254, 254); (255, 255); (256, 0); (257, 2)]
  /\ StressOverflow.result_parts (@StressOverflow.loop_end CounterTarget.buggy)
     = ["OVERFLOW_DETECTED"; "SAFETY_BYPASS"; "COUNTER_0";
        "CRITICAL_POINTS:7"; "BYPASSES:1"].
Proof. vm_compute. repeat split. Qed.

Example scenario_against_buggy :
  StressOverflow.default (Normal (@StressOverflow.python CounterTarget.buggy))
  = Normal [ ("Counter overflow reproduced", true);
             ("Safety bypass confirmed", true);
             ("Critical bug present", true) ]
  /\ StressOverflow.default (Throw "require is not defined")
     = Normal [ ("Counter overflow reproduced", false);
                ("Safety bypass confirmed", false);
                ("Critical bug present", false) ].
Proof. vm_compute. split; reflexivity. Qed.

Example driver_against_sound :
  StressOverflow.bypass_observed (@StressOverflow.loop_end CounterTarget.sound)
    = false
  /\ StressOverflow.wraparound_observed
       (@StressOverflow.loop_end CounterTarget.sound) = true.
Proof. vm_compute. repeat split. Qed.

(** ** The summary of the counter-overflow scenario *)

Section SummaryFacts.
Import Str OverflowSummary.






End SummaryFacts.

(** ** The threshold evaluator *)

Section ThresholdFacts.
Import Str K6 ThresholdEvaluator.

Lemma violation_none (snapshot : gmap string Q) (t : threshold) :
  violation snapshot t = None
  <-> exists v, snapshot !! metric_key t = Some v
                /\ holds (cmp t) v (bound t) = true.
Proof.
  unfold violation. destruct (snapshot !! metric_key t) as [v|].
  - destruct (holds (cmp t) v (bound t)) eqn:E.
    + split; [intros _; exists v; auto | reflexivity].
    + split; [discriminate | intros (v' & [= <-] & H); congruence].
  - split; [discriminate | intros (v & H & _); discriminate].
Qed.

Lemma failures_spec (snapshot : gmap string Q) (thresholds : list threshold)
  (t : threshold) (reason : string) :
  (t, reason) ∈ failures (evaluate snapshot thresholds)
  <-> t ∈ thresholds /\ violation snapshot t = Some reason.
Proof.
  unfold evaluate. cbn [failures]. rewrite list_elem_of_omap. split.
  - intros (t' & Hin & H). destruct (violation snapshot t') eqn:E; [|discriminate].
    injection H as <- <-. auto.
  - intros [Hin H]. exists t. rewrite H. auto.
Qed.

Lemma pass_spec (snapshot : gmap string Q) (thresholds : list threshold) :
  pass (evaluate snapshot thresholds) = true
  <-> forall t, t ∈ thresholds -> violation snapshot t = None.
Proof.
  unfold evaluate. cbn [pass].
  induction thresholds as [|t ts IH]; cbn [omap list_omap].
  - split; [intros _ t H; inversion H | reflexivity].
  - destruct (violation snapshot t) as [reason|] eqn:E.
    + split; [discriminate|]. intros H.
      specialize (H t (list_elem_of_here _ _)). congruence.
    + rewrite IH. split.
      * intros H t' Ht'. apply elem_of_cons in Ht' as [->|Ht']; auto.
      * intros H t' Ht'. apply H. now apply list_elem_of_further.
Qed.

(** C8: the verdict is the conjunction over the thresholds.  The run
    passes exactly when every threshold names a metric of the snapshot and
    its comparator holds against it; the failures are exactly the
    thresholds that are violated; a threshold whose metric is missing is
    listed among them with a reason that names the metric, and the run
    fails.  So the overflow scenario fails on every snapshot that lacks the
    counter_overflow_detected or the safety_bypass_detected count. *)
Theorem evaluate_is_conjunction (snapshot : gmap string Q)
  (thresholds : list threshold) :
  (pass (evaluate snapshot thresholds) = true
   <-> forall t, t ∈ thresholds ->
         exists v, snapshot !! metric_key t = Some v
                   /\ holds (cmp t) v (bound t) = true)
  /\ (pass (evaluate snapshot thresholds) = true
      <-> failures (evaluate snapshot thresholds) = [])
  /\ (forall t reason,
        (t, reason) ∈ failures (evaluate snapshot thresholds)
        <-> t ∈ thresholds /\ violation snapshot t = Some reason)
  /\ (forall t, t ∈ thresholds -> snapshot !! metric_key t = None ->
        pass (evaluate snapshot thresholds) = false
        /\ exists reason,
             (t, reason) ∈ failures (evaluate snapshot thresholds)
             /\ includes reason (metric_key t) = true)
  /\ (snapshot !! "counter_overflow_detected.count" = None
      \/ snapshot !! "safety_bypass_detected.count" = None ->
      pass (evaluate snapshot StressOverflow.thresholds) = false).
Proof.
  assert (Hmissing : forall ts t, t ∈ ts -> snapshot !! metric_key t = None ->
            pass (evaluate snapshot ts) = false).
  { intros ts t Hin Hnone.
    destruct (pass (evaluate snapshot ts)) eqn:E; [|reflexivity].
    pose proof (proj1 (pass_spec snapshot ts) E t Hin) as Hnot.
    apply violation_none in Hnot as (v & Hv & _). congruence. }
  split.
  { rewrite pass_spec. split; intros H t Ht; apply violation_none, H, Ht. }
  split.
  { unfold evaluate. cbn [pass failures]. destruct (omap _ _); split; congruence. }
  split; [intros t reason; apply failures_spec|].
  split.
  { intros t Hin Hnone. split; [eapply Hmissing; eassumption|].
    exists ("metric " +:+ metric_key t +:+ " is missing from the snapshot").
    split.
    - apply failures_spec. split; [exact Hin|]. unfold violation.
      rewrite Hnone. reflexivity.
    - apply includes_occurs. eexists _, _. reflexivity. }
  intros [H|H].
  - apply (Hmissing _ (mkThreshold "counter_overflow_detected" "count" Gt 0%Q));
      [unfold StressOverflow.thresholds; repeat constructor | exact H].
  - apply (Hmissing _ (mkThreshold "safety_bypass_detected" "count" Gt 0%Q));
      [unfold StressOverflow.thresholds; repeat constructor | exact H].
Qed.

(** The specification's example: a check rate of 0.85 against the
    threshold rate above 0.90 fails with that threshold listed. *)
Example evaluate_rate_below_threshold :
  let t := mkThreshold "checks" "rate" Gt 0.90%Q in
  pass (evaluate {[ "checks.rate" := 0.85%Q ]} [t]) = false
  /\ fst <$> failures (evaluate {[ "checks.rate" := 0.85%Q ]} [t]) = [t].
Proof. vm_compute. split; reflexivity. Qed.

End ThresholdFacts.

(** ** The fast-typing scenario *)

Section FastTypingFacts.
Import Str K6 FastTyping.

Context {K : Clock}.

Lemma simulateRapidModeChange_token (w : world) :
  fst (simulateRapidModeChange w)
  = if mode_change_duration w <? 200 then "LETHAL_OVERDOSE" else "SUCCESS".
Proof.
  unfold simulateRapidModeChange, mode_change_duration.
  destruct (getTime w) as [startTime w1].
  destruct (getTime (sleep 0.05%Q (sleep 0.1%Q w1))) as [endTime w4].
  destruct (endTime - startTime <? 200); reflexivity.
Qed.

Lemma default_first_sample (w : world) :
  exists rest,
    fst (default w)
    = ("No lethal overdose in mode change",
       negb (includes (fst (simulateRapidModeChange w)) "LETHAL")) :: rest.
Proof.
  unfold default.
  destruct (simulateRapidModeChange w) as [result1 w1].
  destruct (simulateRapidEditing _) as [result2 w3].
  destruct (simulateFastSetup _) as [result3 w5].
  cbn. eexists. reflexivity.
Qed.

(** C9: [simulateRapidModeChange] returns LETHAL_OVERDOSE or SUCCESS, and
    LETHAL_OVERDOSE exactly when the time it measures between its two clock
    readings is below 200 ms.  The token depends on the clock alone, and
    the check "No lethal overdose in mode change" of the iteration fails
    exactly when that measured time is below 200 ms. *)
Theorem rapid_mode_change_is_timed (w : world) :
  let token := fst (simulateRapidModeChange w) in
  (token = "LETHAL_OVERDOSE" \/ token = "SUCCESS")
  /\ (token = "LETHAL_OVERDOSE" <-> mode_change_duration w < 200)
  /\ (token = "SUCCESS" <-> 200 <= mode_change_duration w)
  /\ (("No lethal overdose in mode change", false) ∈ fst (default w)
      <-> mode_change_duration w < 200)
  /\ (mode_change_duration w < 200 ->
      exists rest,
        fst (default w) = ("No lethal overdose in mode change", false) :: rest).
Proof.
  cbv zeta.
  destruct (default_first_sample w) as [rest Hdefault].
  assert (Hrest : ("No lethal overdose in mode change", false) ∉ rest).
  { revert Hdefault. unfold default.
    destruct (simulateRapidModeChange w) as [r1 w1].
    destruct (simulateRapidEditing _) as [r2 w3].
    destruct (simulateFastSetup _) as [r3 w5].
    cbn. intros [= <-]. intros H.
    repeat (apply elem_of_cons in H as [H|H]; [discriminate H|]).
    inversion H. }
  rewrite Hdefault, simulateRapidModeChange_token.
  destruct (Z.ltb_spec (mode_change_duration w) 200) as [Hlt|Hge].
  - split; [auto|]. split; [tauto|]. split; [split; [discriminate|lia]|].
    split.
    + split; [auto|]. intros _. apply list_elem_of_here.
    + intros _. exists rest. reflexivity.
  - split; [auto|]. split; [split; [discriminate|lia]|]. split; [tauto|].
    split.
    + split; [|lia]. intros H. apply elem_of_cons in H as [H|H].
      * discriminate H.
      * contradiction.
    + lia.
Qed.

End FastTypingFacts.

(** On a clock whose sleeps take exactly as long as asked the measured
    time is 150 ms and the check fails; on a clock whose every sleep
    overruns by 30 ms the measured time is 210 ms and it passes. *)
Example rapid_mode_change_on_time :
  @FastTyping.mode_change_duration (CounterTarget.clock 0) 1000 = 150
  /\ fst (@FastTyping.simulateRapidModeChange (CounterTarget.clock 0) 1000)
     = "LETHAL_OVERDOSE"
  /\ @FastTyping.mode_change_duration (CounterTarget.clock 30) 1000 = 210
  /\ fst (@FastTyping.simulateRapidModeChange (CounterTarget.clock 30) 1000)
     = "SUCCESS".
Proof. vm_compute. repeat split. Qed.

(** * Further properties of the scripts *)

(** ** Where a marker can occur *)

Section MarkerFacts.
Import Str Chars.

Lemma all_chars_app (P : ascii -> bool) (a b : string) :
  all_chars P (a +:+ b) = (all_chars P a && all_chars P b)%bool.
Proof.
  induction a as [|x a IH]; [reflexivity|].
  change (String x a +:+ b) with (String x (a +:+ b)).
  cbn [all_chars]. rewrite IH. apply andb_assoc.
Qed.

Lemma all_chars_occurs (P : ascii -> bool) (kw s : string) :
  occurs_in kw s -> all_chars P s = true -> all_chars P kw = true.
Proof.
  intros (pre & post & ->). rewrite !all_chars_app, !andb_true_iff. tauto.
Qed.

(** A marker with a character that the token has nowhere is not found. *)
Lemma includes_foreign (P : ascii -> bool) (s kw : string) :
  all_chars P s = true -> all_chars P kw = false -> includes s kw = false.
Proof.
  intros Hs Hkw. apply includes_absent. intros H.
  rewrite (all_chars_occurs P kw s H Hs) in Hkw. discriminate.
Qed.

Lemma prefix_unfold (k : ascii) (kw : string) (s : string) :
  String.prefix (String k kw) s
  = match s with
    | EmptyString => false
    | String x t => if ascii_dec k x then String.prefix kw t else false
    end.
Proof. destruct s; reflexivity. Qed.

Lemma prefix_sep (sep : ascii) (kw a b : string) :
  all_chars (other_than sep) kw = true ->
  String.prefix kw (a +:+ String sep b) = String.prefix kw a.
Proof.
  revert a. induction kw as [|k kw IH]; intros a Hkw.
  - destruct a; reflexivity.
  - cbn [all_chars] in Hkw. apply andb_true_iff in Hkw as [Hk Hkw].
    rewrite !prefix_unfold. destruct a as [|x a].
    + change (EmptyString +:+ String sep b) with (String sep b).
      lazy beta iota.
      destruct (ascii_dec k sep) as [->|]; [|reflexivity].
      unfold other_than in Hk. rewrite Ascii.eqb_refl in Hk. discriminate.
    + change (String x a +:+ String sep b) with (String x (a +:+ String sep b)).
      lazy beta iota. rewrite IH by assumption. reflexivity.
Qed.

(** A marker free of the separator lies on one side of it. *)
Lemma includes_sep (sep : ascii) (kw a b : string) :
  all_chars (other_than sep) kw = true ->
  includes (a +:+ String sep b) kw = (includes a kw || includes b kw)%bool.
Proof.
  intros Hkw. induction a as [|x a IH].
  - change (EmptyString +:+ String sep b) with (String sep b).
    rewrite (includes_unfold (String sep b)), (includes_unfold EmptyString).
    rewrite <- (prefix_sep sep kw EmptyString b Hkw).
    change (EmptyString +:+ String sep b) with (String sep b).
    destruct (String.prefix kw (String sep b)); reflexivity.
  - change (String x a +:+ String sep b) with (String x (a +:+ String sep b)).
    rewrite (includes_unfold (String x _)), (includes_unfold (String x a)).
    rewrite <- (prefix_sep sep kw (String x a) b Hkw), IH.
    change (String x a +:+ String sep b) with (String x (a +:+ String sep b)).
    destruct (String.prefix kw _); reflexivity.
Qed.

Lemma includes_empty (kw : string) :
  String.eqb kw EmptyString = false -> includes EmptyString kw = false.
Proof. destruct kw; [discriminate|reflexivity]. Qed.

Lemma marker_parts (kw : string) :
  marker kw = true ->
  String.eqb kw EmptyString = false
  /\ all_chars (other_than ":"%char) kw = true
  /\ all_chars (other_than "010"%char) kw = true
  /\ all_chars not_white kw = true.
Proof.
  unfold marker. rewrite !andb_true_iff, negb_true_iff. tauto.
Qed.

(** A marker is found in the output of a program exactly when one of the
    lines it printed holds it. *)
Lemma includes_lines (kw : string) (lines : list string) :
  marker kw = true ->
  includes (fold_right (fun line out => line +:+ nl +:+ out) EmptyString lines) kw
  = existsb (fun line => includes line kw) lines.
Proof.
  intros Hkw. destruct (marker_parts kw Hkw) as (Hne & _ & Hnl & _).
  induction lines as [|line lines IH]; cbn [fold_right existsb].
  - apply includes_empty, Hne.
  - change (nl +:+ ?out) with (String "010"%char out).
    rewrite includes_sep, IH by assumption. reflexivity.
Qed.

(** The same for the parts of a line joined by colons. *)
Lemma includes_join (kw : string) (parts : list string) :
  marker kw = true ->
  includes (join ":" parts) kw = existsb (fun part => includes part kw) parts.
Proof.
  intros Hkw. destruct (marker_parts kw Hkw) as (Hne & Hcolon & _ & _).
  induction parts as [|part parts IH]; cbn [existsb].
  - apply includes_empty, Hne.
  - destruct parts as [|next parts].
    + cbn [join existsb]. rewrite orb_false_r. reflexivity.
    + change (join ":" (part :: next :: parts))
        with (part +:+ String ":"%char (join ":" (next :: parts))).
      rewrite includes_sep, IH by assumption. reflexivity.
Qed.

Lemma string_app_assoc (a b c : string) : (a +:+ b) +:+ c = a +:+ (b +:+ c).
Proof.
  induction a as [|x a IH]; [reflexivity|].
  change (String x a +:+ b) with (String x (a +:+ b)).
  change (String x (a +:+ b) +:+ c) with (String x ((a +:+ b) +:+ c)).
  rewrite IH. reflexivity.
Qed.

Lemma string_app_empty (a : string) : a +:+ EmptyString = a.
Proof.
  induction a as [|x a IH]; [reflexivity|].
  change (String x a +:+ EmptyString) with (String x (a +:+ EmptyString)).
  rewrite IH. reflexivity.
Qed.

Lemma reverse_onto_app (s acc : string) :
  reverse_onto s acc = reverse s +:+ acc.
Proof.
  unfold reverse. revert acc. induction s as [|a s IH]; intros acc; [reflexivity|].
  cbn [reverse_onto]. rewrite (IH (String a acc)), (IH (String a EmptyString)).
  rewrite string_app_assoc. reflexivity.
Qed.

Lemma reverse_cons (a : ascii) (s : string) :
  reverse (String a s) = reverse s +:+ String a EmptyString.
Proof. unfold reverse at 1. cbn [reverse_onto]. apply reverse_onto_app. Qed.

Lemma reverse_app (a b : string) : reverse (a +:+ b) = reverse b +:+ reverse a.
Proof.
  induction a as [|x a IH].
  - change (EmptyString +:+ b) with b. symmetry. apply string_app_empty.
  - change (String x a +:+ b) with (String x (a +:+ b)).
    rewrite !reverse_cons, IH. apply string_app_assoc.
Qed.

Lemma reverse_reverse (s : string) : reverse (reverse s) = s.
Proof.
  induction s as [|a s IH]; [reflexivity|].
  rewrite reverse_cons, reverse_app, IH. reflexivity.
Qed.

Lemma all_chars_reverse (P : ascii -> bool) (s : string) :
  all_chars P (reverse s) = all_chars P s.
Proof.
  induction s as [|a s IH]; [reflexivity|].
  rewrite reverse_cons, all_chars_app, IH. cbn [all_chars].
  rewrite andb_true_r. apply andb_comm.
Qed.

Lemma drop_white_unfold (w2 : ascii -> ascii -> bool)
  (w3 : ascii -> ascii -> ascii -> bool) (s : string) :
  drop_white w2 w3 s
  = match s with
    | EmptyString => EmptyString
    | String a t =>
        if is_white a then drop_white w2 w3 t
        else match t with
             | EmptyString => s
             | String b u =>
                 if w2 a b then drop_white w2 w3 u
                 else match u with
                      | EmptyString => s
                      | String c v =>
                          if w3 a b c then drop_white w2 w3 v else s
                      end
             end
    end.
Proof. destruct s; reflexivity. Qed.

(** What [drop_white] removes is made of bytes that can belong to white
    space, when [w2] and [w3] accept only such bytes. *)
Lemma drop_white_split (w2 : ascii -> ascii -> bool)
  (w3 : ascii -> ascii -> ascii -> bool) :
  (forall a b, w2 a b = true -> strippable a = true /\ strippable b = true) ->
  (forall a b c, w3 a b c = true ->
     strippable a = true /\ strippable b = true /\ strippable c = true) ->
  forall s, exists w,
    s = w +:+ drop_white w2 w3 s /\ all_chars strippable w = true.
Proof.
  intros H2 H3 s.
  assert (Hlen : forall n s, (String.length s <= n)%nat ->
            exists w, s = w +:+ drop_white w2 w3 s
                      /\ all_chars strippable w = true).
  { clear s. induction n as [|n IH]; intros s Hs.
    - destruct s; [|cbn in Hs; lia]. exists EmptyString. split; reflexivity.
    - rewrite drop_white_unfold. destruct s as [|a t].
      { exists EmptyString. split; reflexivity. }
      cbn [String.length] in Hs. destruct (is_white a) eqn:Ha.
      { destruct (IH t) as (w & Hw & Hall); [lia|].
        exists (String a w). split.
        - change (String a w +:+ ?r) with (String a (w +:+ r)).
          rewrite <- Hw. reflexivity.
        - cbn [all_chars]. unfold strippable at 1. rewrite Ha, Hall. reflexivity. }
      destruct t as [|b u]; [exists EmptyString; split; reflexivity|].
      cbn [String.length] in Hs. destruct (w2 a b) eqn:Hab.
      { destruct (H2 a b Hab) as [Sa Sb].
        destruct (IH u) as (w & Hw & Hall); [lia|].
        exists (String a (String b w)). split.
        - change (String a (String b w) +:+ ?r) with (String a (String b (w +:+ r))).
          rewrite <- Hw. reflexivity.
        - cbn [all_chars]. rewrite Sa, Sb, Hall. reflexivity. }
      destruct u as [|c v]; [exists EmptyString; split; reflexivity|].
      cbn [String.length] in Hs. destruct (w3 a b c) eqn:Habc.
      { destruct (H3 a b c Habc) as (Sa & Sb & Sc).
        destruct (IH v) as (w & Hw & Hall); [lia|].
        exists (String a (String b (String c w))). split.
        - change (String a (String b (String c w)) +:+ ?r)
            with (String a (String b (String c (w +:+ r)))).
          rewrite <- Hw. reflexivity.
        - cbn [all_chars]. rewrite Sa, Sb, Sc, Hall. reflexivity. }
      exists EmptyString. split; reflexivity. }
  apply (Hlen (String.length s)). lia.
Qed.

Lemma is_white2_strippable (a b : ascii) :
  is_white2 a b = true -> strippable a = true /\ strippable b = true.
Proof.
  unfold is_white2, strippable. rewrite andb_true_iff, !Nat.eqb_eq.
  intros [-> ->]. split; apply orb_true_r.
Qed.

Lemma is_white3_strippable (a b c : ascii) :
  is_white3 a b c = true ->
  strippable a = true /\ strippable b = true /\ strippable c = true.
Proof.
  unfold is_white3, strippable. cbv zeta.
  rewrite !orb_true_iff, !andb_true_iff, !orb_true_iff, !andb_true_iff,
    !Nat.eqb_eq, !Nat.leb_le, !Nat.ltb_lt.
  lia.
Qed.

Lemma trim_start_split (s : string) :
  exists w, s = w +:+ trim_start s /\ all_chars strippable w = true.
Proof.
  apply drop_white_split;
    [apply is_white2_strippable | apply is_white3_strippable].
Qed.

Lemma trim_end_split (s : string) :
  exists w, s = trim_end s +:+ w /\ all_chars strippable w = true.
Proof.
  unfold trim_end.
  destruct (drop_white_split (fun b a => is_white2 a b)
              (fun c b a => is_white3 a b c)) with (s := reverse s)
    as (w & Hw & Hall).
  - intros a b H. apply is_white2_strippable in H. tauto.
  - intros a b c H. apply is_white3_strippable in H. tauto.
  - exists (reverse w). split; [|rewrite all_chars_reverse; exact Hall].
    rewrite <- reverse_app, <- Hw, reverse_reverse. reflexivity.
Qed.

Lemma sturdy_parts (kw : string) :
  sturdy kw = true ->
  String.eqb kw EmptyString = false
  /\ all_chars (fun a => negb (strippable a)) kw = true.
Proof. unfold sturdy. rewrite andb_true_iff, negb_true_iff. tauto. Qed.

Lemma sturdy_other_than (a : ascii) (kw : string) :
  strippable a = true ->
  all_chars (fun a => negb (strippable a)) kw = true ->
  all_chars (other_than a) kw = true.
Proof.
  intros Ha. induction kw as [|k kw IH]; [reflexivity|].
  cbn [all_chars]. rewrite andb_true_iff. intros [Hk Hkw].
  rewrite (IH Hkw), andb_true_r. unfold other_than.
  destruct (Ascii.eqb_spec a k) as [<-|]; [|reflexivity].
  rewrite Ha in Hk. discriminate.
Qed.

Lemma sturdy_not_strippable (kw : string) :
  sturdy kw = true -> all_chars strippable kw = false.
Proof.
  intros H. destruct (sturdy_parts kw H) as [Hne Hall].
  destruct kw as [|k kw]; [discriminate|].
  cbn [all_chars] in *. apply andb_true_iff in Hall as [Hk _].
  apply negb_true_iff in Hk. rewrite Hk. reflexivity.
Qed.

(** A word that [trim] cannot touch is found behind stripped bytes, and in
    front of them, exactly when it is found without them. *)
Lemma includes_behind (w s kw : string) :
  all_chars strippable w = true -> sturdy kw = true ->
  includes (w +:+ s) kw = includes s kw.
Proof.
  intros Hw Hkw. destruct (sturdy_parts kw Hkw) as [Hne Hall].
  induction w as [|a w IH]; [reflexivity|].
  cbn [all_chars] in Hw. apply andb_true_iff in Hw as [Ha Hw].
  change (String a w +:+ s) with (EmptyString +:+ String a (w +:+ s)).
  rewrite (includes_sep a) by (apply sturdy_other_than; assumption).
  rewrite (includes_empty kw Hne), (IH Hw). reflexivity.
Qed.

Lemma includes_before (w s kw : string) :
  all_chars strippable w = true -> sturdy kw = true ->
  includes (s +:+ w) kw = includes s kw.
Proof.
  intros Hw Hkw. destruct (sturdy_parts kw Hkw) as [Hne Hall].
  destruct w as [|a w]; [rewrite string_app_empty; reflexivity|].
  cbn [all_chars] in Hw. apply andb_true_iff in Hw as [Ha Hw].
  rewrite (includes_sep a) by (apply sturdy_other_than; assumption).
  rewrite (includes_foreign strippable w kw Hw (sturdy_not_strippable kw Hkw)).
  apply orb_false_r.
Qed.

(** Trimming a token does not change what is found in it. *)
Lemma includes_trim (kw s : string) :
  sturdy kw = true -> includes (trim s) kw = includes s kw.
Proof.
  intros Hkw. unfold trim.
  destruct (trim_start_split s) as (w1 & H1 & Hw1).
  destruct (trim_end_split (trim_start s)) as (w2 & H2 & Hw2).
  rewrite H1 at 2. rewrite (includes_behind w1 _ kw Hw1 Hkw).
  rewrite H2 at 2. rewrite (includes_before w2 _ kw Hw2 Hkw).
  reflexivity.
Qed.

Lemma all_chars_pretty_N_go (P : ascii -> bool) (x : N) (s : string) :
  all_chars P "0123456789" = true ->
  all_chars P s = true -> all_chars P (pretty_N_go x s) = true.
Proof.
  intros Hdigits. revert s.
  induction (N.lt_wf_0 x) as [x _ IH]; intros s Hs.
  destruct (N.eq_dec x 0%N) as [->|Hx]; [exact Hs|].
  rewrite pretty_N_go_step by lia.
  apply IH; [apply N.div_lt; lia|].
  cbn [all_chars]. rewrite Hs, andb_true_r.
  cbn in Hdigits. rewrite !andb_true_iff in Hdigits.
  unfold pretty_N_char. repeat case_match; tauto.
Qed.

(** A printed integer is made of digits and at most a sign. *)
Lemma all_chars_num (P : ascii -> bool) (z : Z) :
  all_chars P "-0123456789" = true -> all_chars P (num z) = true.
Proof.
  intros H. cbn [all_chars] in H. apply andb_true_iff in H as [Hsign Hdigits].
  change (all_chars P "0123456789" = true) in Hdigits.
  assert (Hzero : P "0"%char = true).
  { cbn in Hdigits. rewrite !andb_true_iff in Hdigits. tauto. }
  assert (Hpos : forall p, all_chars P (pretty (N.pos p)) = true).
  { intros p. unfold pretty, pretty_N.
    destruct (decide (N.pos p = 0%N)); [discriminate|].
    apply all_chars_pretty_N_go; [exact Hdigits|reflexivity]. }
  unfold num, pretty, pretty_Z. destruct z as [|p|p].
  - cbn. rewrite Hzero. reflexivity.
  - apply Hpos.
  - change ("-" +:+ ?t) with (String "-"%char t). cbn [all_chars].
    rewrite Hsign. apply Hpos.
Qed.

End MarkerFacts.

(** ** Dispatch outside the catalogue, and error tokens *)

Section DispatchFacts.
Import Str Chars K6 ConcurrentOperations.

Lemma classify_clean (result : string) (n : Z) :
  (forall kw, kw ∈ hazard_keywords -> ~ occurs_in kw result) ->
  classify result n = (clean_samples, n).
Proof.
  intros Hclean.
  assert (Hno : forall kw, kw ∈ hazard_keywords -> includes result kw = false).
  { intros kw Hkw. apply includes_absent, Hclean, Hkw. }
  unfold classify, check, checks, clean_samples. cbn [map fst snd].
  rewrite !Hno by (unfold hazard_keywords; repeat constructor).
  reflexivity.
Qed.

Lemma dispatch_names (vuId : Z) :
  template_of (getWorkflowForOperator vuId) ∈ dispatched_names.
Proof.
  unfold getWorkflowForOperator, js_index.
  destruct (_ <? 0); [apply list_elem_of_here|].
  destruct (workflows !! _) as [name|] eqn:E; [|apply list_elem_of_here].
  apply list_elem_of_further. apply list_elem_of_lookup. eauto.
Qed.

(** X1: a negative [vuId] falls outside the catalogue unless it is a
    multiple of five.  The dispatch then returns [undefined], the [switch]
    takes its default arm, and an exception of the standard workflow comes
    back as the token [ERROR_undefined: <message>]; a negative multiple of
    five is given the first workflow of the catalogue. *)
Theorem dispatch_negative (vuId : Z) :
  vuId < 0 ->
  (vuId mod 5 = 0 -> getWorkflowForOperator vuId = Some "experienced_fast")
  /\ (vuId mod 5 <> 0 ->
      getWorkflowForOperator vuId = None
      /\ switch_arm (getWorkflowForOperator vuId) = StandardWorkflow
      /\ forall rcp : completion execSync_t,
           executeWorkflow rcp (getWorkflowForOperator vuId) vuId
           = try_catch (executeStandardWorkflow rcp vuId)
               (fun message => mret ("ERROR_undefined: " +:+ message))).
Proof.
  intros Hneg. unfold getWorkflowForOperator, js_index.
  change (Z.of_nat (length workflows)) with 5.
  split; intros Hmod.
  - assert (Hrem : Z.rem vuId 5 = 0)
      by (Z.to_euclidean_division_equations; lia).
    rewrite Hrem. reflexivity.
  - assert (Hrem : Z.rem vuId 5 < 0)
      by (Z.to_euclidean_division_equations; lia).
    apply Z.ltb_lt in Hrem. rewrite Hrem. repeat split.
Qed.

Lemma dispatch_negative_witness :
  -7 < 0
  /\ getWorkflowForOperator (-7) = None
  /\ getWorkflowForOperator (-10) = Some "experienced_fast".
Proof.
  split; [lia|]. split.
  - apply (dispatch_negative (-7)); [lia | discriminate].
  - reflexivity.
Defined.

Lemma dispatch_by_residue (vuId : Z) :
  0 <= vuId ->
  getWorkflowForOperator vuId = workflows !! Z.to_nat (vuId mod 5)
  /\ 0 <= vuId mod 5 < 5.
Proof.
  intros H. destruct (rem_is_index vuId H) as [Hrem Hr].
  change (Z.of_nat (length workflows)) with 5 in *.
  split; [|exact Hr].
  unfold getWorkflowForOperator, js_index.
  change (Z.of_nat (length workflows)) with 5. rewrite Hrem.
  destruct (Z.ltb_spec (vuId mod 5) 0); [lia|reflexivity].
Qed.

(** X2: two virtual users run the same workflow exactly when their
    identifiers agree modulo five, so five consecutive users cover the
    whole catalogue; the entry at position [i] of the catalogue belongs to
    the users congruent to [i], and the first entry goes to users 5, 10,
    ..., not to user 1. *)
Theorem dispatch_same_iff_congruent (v1 v2 : Z) :
  0 <= v1 -> 0 <= v2 ->
  (getWorkflowForOperator v1 = getWorkflowForOperator v2
   <-> v1 mod 5 = v2 mod 5)
  /\ getWorkflowForOperator (v1 + 5) = getWorkflowForOperator v1
  /\ (forall name, name ∈ workflows ->
        exists v, v1 < v <= v1 + 5 /\ getWorkflowForOperator v = Some name)
  /\ (getWorkflowForOperator v1 = Some "experienced_fast" <-> v1 mod 5 = 0).
Proof.
  intros H1 H2.
  destruct (dispatch_by_residue v1 H1) as [-> Hr1].
  destruct (dispatch_by_residue v2 H2) as [-> Hr2].
  assert (Hcases : forall r, 0 <= r < 5 ->
            r = 0 \/ r = 1 \/ r = 2 \/ r = 3 \/ r = 4) by (intros; lia).
  split; [|split; [|split]].
  - split; [|intros ->; reflexivity].
    destruct (Hcases _ Hr1) as [-> | [-> | [-> | [-> | ->]]]];
      destruct (Hcases _ Hr2) as [-> | [-> | [-> | [-> | ->]]]];
      cbn; intros H; (reflexivity || discriminate H).
  - destruct (dispatch_by_residue (v1 + 5)) as [-> _]; [lia|].
    replace ((v1 + 5) mod 5) with (v1 mod 5)
      by (Z.to_euclidean_division_equations; lia).
    reflexivity.
  - intros name Hname. apply list_elem_of_lookup in Hname as [i Hi].
    assert (Hlt : (i < 5)%nat) by (apply lookup_lt_Some in Hi; exact Hi).
    (* the user after [v1] whose residue is [i] *)
    exists (v1 + 1 + (Z.of_nat i - (v1 + 1)) mod 5).
    assert (Hres : (v1 + 1 + (Z.of_nat i - (v1 + 1)) mod 5) mod 5 = Z.of_nat i)
      by (Z.to_euclidean_division_equations; lia).
    split; [Z.to_euclidean_division_equations; lia|].
    destruct (dispatch_by_residue (v1 + 1 + (Z.of_nat i - (v1 + 1)) mod 5))
      as [-> _]; [Z.to_euclidean_division_equations; lia|].
    rewrite Hres, Nat2Z.id. exact Hi.
  - destruct (Hcases _ Hr1) as [E|[E|[E|[E|E]]]]; rewrite E; cbn;
      split; intros H; (reflexivity || discriminate H || lia).
Qed.

Lemma dispatch_same_iff_congruent_witness :
  0 <= 1 /\ 0 <= 6
  /\ getWorkflowForOperator 1 = Some "new_cautious"
  /\ (getWorkflowForOperator 1 = getWorkflowForOperator 6 <-> 1 mod 5 = 6 mod 5).
Proof.
  split; [lia|]. split; [lia|]. split; [reflexivity|].
  apply (dispatch_same_iff_congruent 1 6); lia.
Defined.

Lemma error_token_includes (name kw message : string) :
  marker kw = true ->
  includes ("ERROR_" +:+ name +:+ ": " +:+ message) kw
  = (includes ("ERROR_" +:+ name) kw || includes message kw)%bool.
Proof.
  intros Hkw. destruct (marker_parts kw Hkw) as (Hne & Hcolon & _ & Hw).
  assert (Hspace : all_chars (other_than " "%char) kw = true).
  { clear - Hw. induction kw as [|k kw IH]; [reflexivity|].
    cbn [all_chars] in *. apply andb_true_iff in Hw as [Hk Hw].
    rewrite (IH Hw), andb_true_r. unfold other_than, not_white in *.
    destruct (Ascii.eqb_spec " "%char k) as [<-|]; [discriminate Hk|reflexivity]. }
  change (": " +:+ message)
    with (String ":"%char (EmptyString +:+ String " "%char message)).
  rewrite <- string_app_assoc.
  rewrite (includes_sep ":"%char) by assumption.
  rewrite (includes_sep " "%char) by assumption.
  rewrite (includes_empty kw Hne). reflexivity.
Qed.

(** X3: an error token of the concurrent scenario is classified by its
    message alone.  Whatever the virtual user, the token
    [ERROR_<workflow>: <message>] fails a check or counts as a race exactly
    when the message does; so an iteration whose workflow throws is
    recorded with all checks passed unless the message of the exception
    itself holds a hazard keyword. *)
Theorem error_token_classified_by_message
  (rcp : completion execSync_t) (vuId n : Z) (message : string) :
  classify ("ERROR_" +:+ template_of (getWorkflowForOperator vuId)
            +:+ ": " +:+ message) n
  = classify message n
  /\ (run_arm rcp (switch_arm (getWorkflowForOperator vuId)) vuId = Throw message ->
      default rcp vuId n = Normal (classify message n))
  /\ ((forall kw, kw ∈ hazard_keywords -> ~ occurs_in kw message) ->
      classify ("ERROR_" +:+ template_of (getWorkflowForOperator vuId)
                +:+ ": " +:+ message) n
      = (clean_samples, n)).
Proof.
  assert (Hsame : forall kw, kw ∈ hazard_keywords ->
            includes ("ERROR_" +:+ template_of (getWorkflowForOperator vuId)
                      +:+ ": " +:+ message) kw
            = includes message kw).
  { intros kw Hkw. pose proof (dispatch_names vuId) as Hname.
    unfold hazard_keywords in Hkw. unfold dispatched_names, workflows in Hname.
    repeat (apply elem_of_cons in Hkw as [->|Hkw]);
      try (inversion Hkw; fail);
      (rewrite error_token_includes by reflexivity);
      repeat (apply elem_of_cons in Hname as [->|Hname]);
      try (inversion Hname; fail); reflexivity. }
  assert (Hclassify :
            classify ("ERROR_" +:+ template_of (getWorkflowForOperator vuId)
                      +:+ ": " +:+ message) n
            = classify message n).
  { unfold classify, check, checks. cbn [map fst snd].
    rewrite !Hsame by (unfold hazard_keywords; repeat constructor).
    reflexivity. }
  split; [exact Hclassify|]. split.
  - intros Hthrow. unfold default, executeWorkflow. rewrite Hthrow.
    change (Normal (classify ("ERROR_" +:+ template_of (getWorkflowForOperator vuId)
                              +:+ ": " +:+ message) n)
            = Normal (classify message n)).
    rewrite Hclassify. reflexivity.
  - intros Hclean. rewrite Hclassify.
    apply (classify_clean message n Hclean).
Qed.

(** X4: the overflow scenario treats its error token the same way.  The
    three checks of the token [ERROR: <message>] are the three checks of the
    message, so when the module cannot be loaded or the child process fails
    the iteration records the checks of that message, and all three fail
    when the message holds none of the markers. *)
Theorem overflow_error_token_checked_by_message
  (rcp : completion execSync_t) (message : string) :
  check ("ERROR: " +:+ message) StressOverflow.checks
  = check message StressOverflow.checks
  /\ (StressOverflow.performOverflowTest rcp = Normal ("ERROR: " +:+ message) ->
      StressOverflow.default rcp = Normal (check message StressOverflow.checks))
  /\ StressOverflow.default (Throw message)
     = Normal (check message StressOverflow.checks)
  /\ (includes message "OVERFLOW_DETECTED" = false ->
      includes message "SAFETY_BYPASS" = false ->
      includes message "COUNTER_0" = false ->
      StressOverflow.default (Throw message)
      = Normal [ ("Counter overflow reproduced", false);
                 ("Safety bypass confirmed", false);
                 ("Critical bug present", false) ]).
Proof.
  assert (Hsame : forall kw, marker kw = true -> includes "ERROR" kw = false ->
            includes ("ERROR: " +:+ message) kw = includes message kw).
  { intros kw Hkw Hno.
    destruct (marker_parts kw Hkw) as (Hne & Hcolon & _ & _).
    change ("ERROR: " +:+ message)
      with ("ERROR" +:+ String ":"%char (String " "%char message)).
    rewrite (includes_sep ":"%char) by assumption. rewrite Hno.
    change (String " "%char message)
      with (EmptyString +:+ String " "%char message).
    destruct (marker_parts kw Hkw) as (_ & _ & _ & Hw).
    rewrite (includes_sep " "%char).
    - rewrite (includes_empty kw Hne). reflexivity.
    - clear - Hw. induction kw as [|k kw IH]; [reflexivity|].
      cbn [all_chars] in *. apply andb_true_iff in Hw as [Hk Hw].
      rewrite (IH Hw), andb_true_r. unfold other_than, not_white in *.
      destruct (Ascii.eqb_spec " "%char k) as [<-|]; [discriminate Hk|reflexivity]. }
  assert (Hcheck : check ("ERROR: " +:+ message) StressOverflow.checks
                   = check message StressOverflow.checks).
  { unfold check, StressOverflow.checks. cbn [map fst snd].
    rewrite !Hsame by reflexivity. reflexivity. }
  split; [exact Hcheck|]. split; [|split].
  - intros H. unfold StressOverflow.default. rewrite H.
    change (Normal (check ("ERROR: " +:+ message) StressOverflow.checks)
            = Normal (check message StressOverflow.checks)).
    rewrite Hcheck. reflexivity.
  - change (Normal (check ("ERROR: " +:+ message) StressOverflow.checks)
            = Normal (check message StressOverflow.checks)).
    rewrite Hcheck. reflexivity.
  - intros H1 H2 H3.
    change (Normal (check ("ERROR: " +:+ message) StressOverflow.checks)
            = Normal [ ("Counter overflow reproduced", false);
                       ("Safety bypass confirmed", false);
                       ("Critical bug present", false) ]).
    rewrite Hcheck. unfold check, StressOverflow.checks. cbn [map fst snd].
    rewrite H1, H2, H3. reflexivity.
Qed.

End DispatchFacts.

(** ** A whole run of the driver *)

Section RunFacts.
Import Str Chars K6 StressOverflow DriverTrace.

Context {T : ControlModule}.

Lemma trace_loop_body (H8 : eight_bit_counter T) (patient : Z) (d : driver) :
  trace_of (loop_body patient d) = trace_step patient (trace_of d).
Proof.
  unfold trace_of, trace_step. cbn [counter points overflow read].
  rewrite loop_body_machine, loop_body_points, loop_body_overflow,
    loop_body_counter.
  cbv zeta.
  assert (Hn : setup_counter (patient_setup patient (c d))
               = (setup_counter (c d) + 1) mod 256)
    by apply (counter_step T H8).
  rewrite !Hn.
  destruct (wraps patient _).
  - rewrite (counter_step T H8), Hn, orb_true_r. reflexivity.
  - rewrite Hn, orb_false_r. reflexivity.
Qed.

Lemma trace_run (H8 : eight_bit_counter T) (patients : list Z) (d : driver) :
  trace_of (run_patients patients d)
  = fold_left (fun t patient => trace_step patient t) patients (trace_of d).
Proof.
  revert d. induction patients as [|patient rest IH]; intros d; [reflexivity|].
  cbn [run_patients fold_left]. fold (run_patients rest (loop_body patient d)).
  rewrite IH, (trace_loop_body H8). reflexivity.
Qed.

Lemma trace_start_of (H8 : eight_bit_counter T) : trace_of start = trace_start.
Proof.
  unfold trace_of, trace_start, start. cbn [c critical_points overflow_detected current_counter].
  rewrite (counter_fresh T H8). reflexivity.
Qed.

Lemma trace_loop_end (H8 : eight_bit_counter T) :
  trace_of loop_end
  = mkTrace 45
      [(1, 1); (2, 2); (253, 253); (254, 254); (255, 255); (256, 0); (257, 2)]
      true (Some 45).
Proof.
  unfold loop_end. rewrite (trace_run H8), (trace_start_of H8).
  vm_compute. reflexivity.
Qed.

(** After the wraparound the counter runs one ahead of the patients, and
    no further safety test is made. *)
Lemma after_wraparound (H8 : eight_bit_counter T) (k : nat) :
  (256 <= k <= 300)%nat ->
  setup_counter (c (after_patients (Z.of_nat k))) = Z.of_nat k - 255
  /\ safety_bypasses (after_patients (Z.of_nat k))
     = safety_bypasses (after_patients 256).
Proof.
  induction k as [|k IH]; [lia|]. intros Hk.
  destruct (Nat.eq_dec k 255%nat) as [->|Hne].
  - split; [|reflexivity].
    destruct (before_wraparound H8 255) as (_ & Hn & _); [lia|].
    rewrite after_patients_succ, loop_body_machine. cbv zeta.
    assert (Hzero : setup_counter
                      (patient_setup (Z.of_nat 256) (c (after_patients (Z.of_nat 255))))
                    = 0).
    { unfold patient_setup. rewrite (counter_step T H8), Hn. reflexivity. }
    rewrite Hzero. change (wraps (Z.of_nat 256) 0) with true. cbv iota.
    rewrite (counter_step T H8), Hzero. reflexivity.
  - destruct IH as [Hn Hb]; [lia|].
    assert (Hread : setup_counter
                      (patient_setup (Z.of_nat (S k)) (c (after_patients (Z.of_nat k))))
                    = Z.of_nat (S k) - 255).
    { unfold patient_setup. rewrite (counter_step T H8), Hn.
      rewrite Z.mod_small; lia. }
    assert (Hw : wraps (Z.of_nat (S k)) (Z.of_nat (S k) - 255) = false).
    { unfold wraps. destruct (Z.eqb_spec (Z.of_nat (S k) - 255) 0); [lia|reflexivity]. }
    rewrite after_patients_succ, loop_body_machine, loop_body_bypasses.
    cbv zeta. rewrite !Hread, !Hw. cbn [andb]. rewrite app_nil_r.
    split; [exact Hread | exact Hb].
Qed.

(** The module on which the safety test of patient 256 is made. *)
Lemma bypasses_at_wraparound (H8 : eight_bit_counter T) :
  let c256 := patient_setup 256 (c (after_patients 255)) in
  let safety_test := setup_treatment 99999 0 0 c256 in
  safety_bypasses (after_patients 256)
  = if (truthy (fst safety_test) && (dose_value (snd safety_test) =? 99999))%bool
    then [256] else [].
Proof.
  cbv zeta.
  destruct (before_wraparound H8 255) as (_ & Hn & _ & Hb); [lia|].
  change 256 with (Z.of_nat 256) at 1.
  rewrite (after_patients_succ 255), loop_body_bypasses. cbv zeta.
  change (Z.of_nat 255) with 255 in *. change (Z.of_nat 256) with 256.
  assert (Hzero : setup_counter (patient_setup 256 (c (after_patients 255))) = 0).
  { unfold patient_setup. rewrite (counter_step T H8), Hn. reflexivity. }
  rewrite Hzero, Hb. change (wraps 256 0) with true. reflexivity.
Qed.

Lemma loop_end_under_eight_bit (H8 : eight_bit_counter T) :
  let safety_test :=
    setup_treatment 99999 0 0 (patient_setup 256 (c (after_patients 255))) in
  critical_points loop_end
  = [(1, 1); (2, 2); (253, 253); (254, 254); (255, 255); (256, 0); (257, 2)]
  /\ overflow_detected loop_end = true
  /\ safety_bypasses loop_end
     = (if (truthy (fst safety_test) && (dose_value (snd safety_test) =? 99999))%bool
        then [256] else []).
Proof.
  cbv zeta. pose proof (trace_loop_end H8) as Htrace.
  pose proof (f_equal points Htrace) as Hp.
  pose proof (f_equal overflow Htrace) as Ho.
  cbn [trace_of points overflow] in Hp, Ho. clear Htrace.
  split; [exact Hp|]. split; [exact Ho|].
  rewrite loop_end_after_300.
  destruct (after_wraparound H8 300) as [_ Hb]; [lia|].
  change (Z.of_nat 300) with 300 in Hb. rewrite Hb.
  apply (bypasses_at_wraparound H8).
Qed.

(** X5: what a run records under the 8-bit counter model.  Whatever the
    target accepts, the driver ends with exactly seven critical points: the
    reads 1 and 2 of the first two patients, 253 to 255, the 0 of patient
    256 and the 2 of patient 257.  The value 1 that follows the wraparound
    is taken by the safety test and is paired with no patient but the
    first; the counter ends at 45, one ahead of the patients since the
    wraparound; and the bypass list is empty or holds patient 256 alone,
    according to the outcome of the one safety test. *)
Theorem run_under_eight_bit_model (H8 : eight_bit_counter T) :
  let safety_test :=
    setup_treatment 99999 0 0 (patient_setup 256 (c (after_patients 255))) in
  critical_points loop_end
  = [(1, 1); (2, 2); (253, 253); (254, 254); (255, 255); (256, 0); (257, 2)]
  /\ (forall patient, (patient, 1) ∈ critical_points loop_end -> patient = 1)
  /\ setup_counter (c loop_end) = 45
  /\ current_counter loop_end = Some 45
  /\ overflow_detected loop_end = true
  /\ safety_bypasses loop_end
     = (if (truthy (fst safety_test) && (dose_value (snd safety_test) =? 99999))%bool
        then [256] else []).
Proof.
  cbv zeta. pose proof (trace_loop_end H8) as Htrace.
  pose proof (f_equal counter Htrace) as Hc.
  pose proof (f_equal points Htrace) as Hp.
  pose proof (f_equal overflow Htrace) as Ho.
  pose proof (f_equal read Htrace) as Hr.
  cbn [trace_of counter points overflow read] in Hc, Hp, Ho, Hr.
  clear Htrace.
  split; [exact Hp|]. split.
  { intros patient H. rewrite Hp in H.
    repeat (apply elem_of_cons in H as [H|H]; [congruence|]). inversion H. }
  split; [exact Hc|]. split; [exact Hr|]. split; [exact Ho|].
  rewrite loop_end_after_300.
  destruct (after_wraparound H8 300) as [_ Hb]; [lia|].
  change (Z.of_nat 300) with 300 in Hb. rewrite Hb.
  apply (bypasses_at_wraparound H8).
Qed.

End RunFacts.

Lemma run_under_eight_bit_model_witness :
  eight_bit_counter CounterTarget.sound
  /\ StressOverflow.safety_bypasses (@StressOverflow.loop_end CounterTarget.sound) = []
  /\ length (StressOverflow.critical_points
               (@StressOverflow.loop_end CounterTarget.sound)) = 7%nat.
Proof.
  pose proof (counter_target_eight_bit 1000 false) as H8.
  destruct (run_under_eight_bit_model (T := CounterTarget.sound) H8)
    as (Hp & _ & _ & _ & _ & Hb).
  split; [exact H8|]. split.
  - rewrite Hb. reflexivity.
  - rewrite Hp. reflexivity.
Defined.

(** ** What the script reads in the output of the driver *)

Section OutputFacts.
Import Str Chars Lines K6 StressOverflow.

Context {T : ControlModule}.

Lemma plain_num (z : Z) : plain (num z) = true.
Proof. apply all_chars_num. reflexivity. Qed.

Lemma plain_app (a b : string) :
  plain a = true -> plain b = true -> plain (a +:+ b) = true.
Proof. unfold plain. rewrite all_chars_app. intros -> ->. reflexivity. Qed.

Lemma plain_join (sep : string) (parts : list string) :
  plain sep = true -> Forall (fun part => plain part = true) parts ->
  plain (join sep parts) = true.
Proof.
  intros Hsep. induction 1 as [|part parts Hpart Hparts IH]; [reflexivity|].
  destruct parts as [|next parts]; [exact Hpart|].
  change (join sep (part :: next :: parts))
    with (part +:+ sep +:+ join sep (next :: parts)).
  auto using plain_app.
Qed.

Lemma plain_repr_points (l : list (Z * Z)) : plain (repr_points l) = true.
Proof.
  unfold repr_points. apply plain_app; [reflexivity|].
  apply plain_app; [|reflexivity].
  apply plain_join; [reflexivity|].
  apply Forall_map, Forall_forall. intros [p v] _. unfold repr_point.
  cbn [fst snd]. auto using plain_app, plain_num.
Qed.

Ltac plain_line :=
  repeat match goal with
         | |- plain (num _) = true => apply plain_num
         | |- plain (repr_points _) = true => apply plain_repr_points
         | |- plain (_ +:+ _) = true => apply plain_app
         | |- plain _ = true => reflexivity
         end.

Lemma print_plain (line : string) (d : driver) :
  plain line = true ->
  Forall (fun line => plain line = true) (printed d) ->
  Forall (fun line => plain line = true) (printed (print line d)).
Proof.
  intros Hline Hd. unfold print. cbn [printed].
  apply Forall_app. split; [exact Hd|]. repeat constructor. exact Hline.
Qed.

Lemma track_critical_plain (patient counter : Z) (d : driver) :
  Forall (fun line => plain line = true) (printed d) ->
  Forall (fun line => plain line = true)
    (printed (track_critical patient counter d)).
Proof.
  intros Hd. unfold track_critical. destruct (bool_decide _); [|exact Hd].
  apply print_plain; [plain_line | exact Hd].
Qed.

Lemma test_safety_plain (patient : Z) (d : driver) :
  Forall (fun line => plain line = true) (printed d) ->
  Forall (fun line => plain line = true) (printed (test_safety patient d)).
Proof.
  intros Hd. unfold test_safety. cbv zeta. cbn [c printed].
  destruct (_ && _)%bool; [|exact Hd].
  apply print_plain; [plain_line | exact Hd].
Qed.

Lemma test_overflow_plain (patient counter : Z) (d : driver) :
  Forall (fun line => plain line = true) (printed d) ->
  Forall (fun line => plain line = true)
    (printed (test_overflow patient counter d)).
Proof.
  intros Hd. unfold test_overflow. destruct (wraps _ _); [|exact Hd].
  apply test_safety_plain, print_plain; [plain_line | exact Hd].
Qed.

Lemma report_progress_plain (patient : Z) (d : driver) :
  Forall (fun line => plain line = true) (printed d) ->
  Forall (fun line => plain line = true) (printed (report_progress patient d)).
Proof.
  intros Hd. unfold report_progress. destruct (_ =? _); [|exact Hd].
  apply print_plain; [plain_line | exact Hd].
Qed.

(** Every line the loop prints is plain. *)
Lemma loop_body_plain (patient : Z) (d : driver) :
  Forall (fun line => plain line = true) (printed d) ->
  Forall (fun line => plain line = true) (printed (loop_body patient d)).
Proof.
  intros Hd. unfold loop_body. cbv zeta.
  apply report_progress_plain, test_overflow_plain, track_critical_plain.
  exact Hd.
Qed.

Lemma run_patients_plain (patients : list Z) (d : driver) :
  Forall (fun line => plain line = true) (printed d) ->
  Forall (fun line => plain line = true) (printed (run_patients patients d)).
Proof.
  revert d. induction patients as [|patient rest IH]; intros d Hd; [exact Hd|].
  apply (IH (loop_body patient d)), loop_body_plain, Hd.
Qed.

Lemma loop_end_plain :
  Forall (fun line => plain line = true) (printed loop_end).
Proof.
  apply run_patients_plain. repeat constructor.
Qed.

(** The statements after the loop add three plain lines and the summary. *)
Lemma printed_finish (d : driver) :
  exists l1 l2 l3 : string,
    plain l1 = true /\ plain l2 = true /\ plain l3 = true
    /\ printed (finish d)
       = printed d ++ [l1; l2; l3; join ":" (result_parts d)].
Proof.
  exists ("Test completed. Critical points: " +:+ repr_points (critical_points d)),
    ("Overflow detected: " +:+ repr_bool (overflow_detected d)),
    ("Safety bypasses: " +:+ num (len (safety_bypasses d))).
  split; [plain_line|].
  split; [destruct (overflow_detected d); reflexivity|].
  split; [plain_line|].
  destruct d as [m pts byp ov cur out].
  unfold finish, print, result_parts.
  cbn [c critical_points safety_bypasses overflow_detected current_counter
         printed].
  rewrite <- !app_assoc. reflexivity.
Qed.

Lemma existsb_plain (kw : string) (lines : list string) :
  plain kw = false ->
  Forall (fun line => plain line = true) lines ->
  existsb (fun line => includes line kw) lines = false.
Proof.
  intros Hkw. induction 1 as [|line lines Hline _ IH]; [reflexivity|].
  cbn [existsb]. rewrite IH, orb_false_r.
  apply (includes_foreign (other_than "_"%char)); assumption.
Qed.

(** A marker with an underscore is found in the output of the driver
    exactly when a part of the summary line holds it. *)
Lemma includes_script_stdout (kw : string) :
  marker kw = true -> sturdy kw = true -> plain kw = false ->
  includes (trim script_stdout) kw
  = existsb (fun part => includes part kw) (result_parts loop_end).
Proof.
  intros Hkw Hsturdy Hunder.
  rewrite includes_trim by assumption.
  unfold script_stdout. rewrite includes_lines by assumption.
  destruct (printed_finish loop_end) as (l1 & l2 & l3 & H1 & H2 & H3 & ->).
  rewrite existsb_app, (existsb_plain kw _ Hunder loop_end_plain).
  cbn [existsb orb].
  rewrite !(includes_foreign (other_than "_"%char)) by assumption.
  rewrite orb_false_r, includes_join by assumption. reflexivity.
Qed.

Lemma includes_count_part (label kw : string) (n : Z) :
  marker kw = true -> plain kw = false ->
  includes (label +:+ ":" +:+ num n) kw = includes label kw.
Proof.
  intros Hkw Hunder. destruct (marker_parts kw Hkw) as (_ & Hcolon & _ & _).
  change (":" +:+ num n) with (String ":"%char (num n)).
  rewrite includes_sep by assumption.
  rewrite (includes_foreign (other_than "_"%char) (num n))
    by (assumption || apply plain_num).
  apply orb_false_r.
Qed.

Lemma checks_of_script_stdout :
  check (trim script_stdout) checks
  = [ ("Counter overflow reproduced", overflow_detected loop_end);
      ("Safety bypass confirmed", bypass_observed loop_end);
      ("Critical bug present",
        existsb (fun point => snd point =? 0) (critical_points loop_end)) ].
Proof.
  unfold check, checks. cbn [map fst snd].
  rewrite !includes_script_stdout by reflexivity.
  unfold result_parts, bypass_observed.
  change ("CRITICAL_POINTS:" +:+ ?n) with ("CRITICAL_POINTS" +:+ ":" +:+ n).
  change ("BYPASSES:" +:+ ?n) with ("BYPASSES" +:+ ":" +:+ n).
  rewrite !existsb_app. cbn [existsb].
  rewrite !includes_count_part by reflexivity.
  destruct (overflow_detected loop_end), (safety_bypasses loop_end),
    (existsb _ (critical_points loop_end)); reflexivity.
Qed.

(** X6: the three checks of the scenario report the three findings of the
    driver.  When the child process runs the driver to its end and hands
    back what it printed, "Counter overflow reproduced" is the driver's
    overflow flag, "Safety bypass confirmed" says whether its bypass list is
    not empty, and "Critical bug present" says whether some critical point
    has counter 0: the lines printed before the summary line, the counts in
    it and the trimming never trip or hide a marker. *)
Theorem checks_report_driver_findings (execSync : execSync_t) :
  execSync command (mkExecOptions "utf8" 120000 (Some (1024 * 1024)))
    = Normal script_stdout ->
  default (Normal execSync)
  = Normal
      [ ("Counter overflow reproduced", overflow_detected loop_end);
        ("Safety bypass confirmed", bypass_observed loop_end);
        ("Critical bug present",
          existsb (fun point => snd point =? 0) (critical_points loop_end)) ].
Proof.
  intros Hrun. unfold default, performOverflowTest.
  cbn [try_catch mbind completion_bind mret completion_ret]. rewrite Hrun.
  cbn [try_catch mbind completion_bind mret completion_ret].
  rewrite checks_of_script_stdout. reflexivity.
Qed.

(** X7: the verdict of the scenario under the 8-bit counter model.  The
    checks "Counter overflow reproduced" and "Critical bug present" pass on
    every target with an 8-bit counter, and "Safety bypass confirmed"
    passes exactly when the target accepts the dose 99999 in the setup that
    follows the 256th and then holds that dose. *)
Theorem scenario_verdict_under_eight_bit_model (H8 : eight_bit_counter T)
  (execSync : execSync_t) :
  execSync command (mkExecOptions "utf8" 120000 (Some (1024 * 1024)))
    = Normal script_stdout ->
  let safety_test :=
    setup_treatment 99999 0 0 (patient_setup 256 (c (after_patients 255))) in
  default (Normal execSync)
  = Normal
      [ ("Counter overflow reproduced", true);
        ("Safety bypass confirmed",
          (truthy (fst safety_test) && (dose_value (snd safety_test) =? 99999))%bool);
        ("Critical bug present", true) ].
Proof.
  intros Hrun. cbv zeta. unfold default, performOverflowTest.
  cbn [try_catch mbind completion_bind mret completion_ret]. rewrite Hrun.
  cbn [try_catch mbind completion_bind mret completion_ret].
  rewrite checks_of_script_stdout.
  pose proof (loop_end_under_eight_bit H8) as (Hp & Ho & Hb).
  unfold bypass_observed. rewrite Hp, Ho, Hb.
  destruct (_ && _)%bool; reflexivity.
Qed.

End OutputFacts.

Lemma checks_report_driver_findings_witness :
  @StressOverflow.python CounterTarget.buggy StressOverflow.command
    (K6.mkExecOptions "utf8" 120000 (Some (1024 * 1024)))
  = Normal (@StressOverflow.script_stdout CounterTarget.buggy)
  /\ StressOverflow.default (Normal (@StressOverflow.python CounterTarget.buggy))
     = Normal [ ("Counter overflow reproduced", true);
                ("Safety bypass confirmed", true);
                ("Critical bug present", true) ].
Proof.
  split; [reflexivity|].
  rewrite (checks_report_driver_findings (T := CounterTarget.buggy)
             (@StressOverflow.python CounterTarget.buggy) eq_refl).
  vm_compute. reflexivity.
Defined.

Lemma scenario_verdict_under_eight_bit_model_witness :
  eight_bit_counter CounterTarget.sound
  /\ @StressOverflow.python CounterTarget.sound StressOverflow.command
       (K6.mkExecOptions "utf8" 120000 (Some (1024 * 1024)))
     = Normal (@StressOverflow.script_stdout CounterTarget.sound)
  /\ StressOverflow.default (Normal (@StressOverflow.python CounterTarget.sound))
     = Normal [ ("Counter overflow reproduced", true);
                ("Safety bypass confirmed", false);
                ("Critical bug present", true) ].
Proof.
  pose proof (counter_target_eight_bit 1000 false) as H8.
  split; [exact H8|]. split; [reflexivity|].
  rewrite (scenario_verdict_under_eight_bit_model (T := CounterTarget.sound) H8
             (@StressOverflow.python CounterTarget.sound) eq_refl).
  vm_compute. reflexivity.
Defined.

(** ** The specific overflow scenarios *)

Section SpecificFacts.
Import Str K6 StressOverflow SpecificScenarios.

Context {T : ControlModule}.

(** X8: what the specific scenarios report under the 8-bit counter model.
    The scenario AT_LIMIT reads the counter before its 256th setup and
    reports 255.  The scenario named OVERFLOW_0 reads the counter after the
    setup with the invalid dose 50000, the 257th, and so reports 1, as does
    AFTER_OVERFLOW: no scenario reports counter 0. *)
Theorem specific_scenarios_under_eight_bit_model (H8 : eight_bit_counter T)
  (str_outcome : outcome -> string) :
  let at_limit := setup_treatment 100 0 0 (setups 255 (new_module "buggy")) in
  let invalid := setup_treatment 50000 0 0 (setups 256 (new_module "buggy")) in
  scenarios
  = [ ("AT_LIMIT", 255, FromTarget (fst at_limit));
      ("OVERFLOW_0", 1, FromTarget (fst invalid));
      ("AFTER_OVERFLOW", 1, PyTrue) ]
  /\ lines str_outcome
     = [ "Testing counter at 255...";
         "Testing overflow to 0...";
         "Testing after overflow...";
         "AT_LIMIT:COUNTER_255:RESULT_" +:+ str_outcome (fst at_limit);
         "OVERFLOW_0:COUNTER_1:RESULT_" +:+ str_outcome (fst invalid);
         "AFTER_OVERFLOW:COUNTER_1:RESULT_True";
         "SPECIFIC_TESTS_COMPLETED" ]
  /\ (forall s, s ∈ scenarios -> snd (fst s) <> 0).
Proof.
  cbv zeta.
  assert (Hscenarios :
            scenarios
            = [ ("AT_LIMIT", 255,
                  FromTarget (fst (setup_treatment 100 0 0
                                     (setups 255 (new_module "buggy")))));
                ("OVERFLOW_0", 1,
                  FromTarget (fst (setup_treatment 50000 0 0
                                     (setups 256 (new_module "buggy")))));
                ("AFTER_OVERFLOW", 1, PyTrue) ]).
  { unfold scenarios. cbv zeta.
    rewrite (counter_step T H8), !(setups_counter H8). reflexivity. }
  split; [exact Hscenarios|]. split.
  - unfold lines. rewrite Hscenarios. reflexivity.
  - intros s Hs. rewrite Hscenarios in Hs.
    repeat (apply elem_of_cons in Hs as [->|Hs]; [discriminate|]).
    inversion Hs.
Qed.

(** X9: [testSpecificOverflowScenarios] hands back the trimmed output of
    the program or an error token, and never throws: a failure to load the
    module or a failure of the child process becomes
    [SPECIFIC_ERROR: <message>]. *)
Theorem specific_scenarios_never_throw (rcp : completion execSync_t) :
  (exists token, testSpecificOverflowScenarios rcp = Normal token)
  /\ (forall message, rcp = Throw message ->
        testSpecificOverflowScenarios rcp
        = Normal ("SPECIFIC_ERROR: " +:+ message))
  /\ (forall execSync message, rcp = Normal execSync ->
        execSync command (mkExecOptions "utf8" 30000 None) = Throw message ->
        testSpecificOverflowScenarios rcp
        = Normal ("SPECIFIC_ERROR: " +:+ message))
  /\ (forall execSync out, rcp = Normal execSync ->
        execSync command (mkExecOptions "utf8" 30000 None) = Normal out ->
        testSpecificOverflowScenarios rcp = Normal (trim out)).
Proof.
  unfold testSpecificOverflowScenarios.
  split; [|split; [|split]].
  - destruct rcp as [execSync|m]; cbn; [|eauto].
    destruct (execSync _ _); cbn; eauto.
  - intros message ->. reflexivity.
  - intros execSync message -> H. cbn. rewrite H. reflexivity.
  - intros execSync out -> H. cbn. rewrite H. reflexivity.
Qed.

End SpecificFacts.

Lemma specific_scenarios_under_eight_bit_model_witness :
  eight_bit_counter CounterTarget.buggy
  /\ @SpecificScenarios.lines CounterTarget.buggy StressOverflow.repr_bool
     = [ "Testing counter at 255...";
         "Testing overflow to 0...";
         "Testing after overflow...";
         "AT_LIMIT:COUNTER_255:RESULT_True";
         "OVERFLOW_0:COUNTER_1:RESULT_True";
         "AFTER_OVERFLOW:COUNTER_1:RESULT_True";
         "SPECIFIC_TESTS_COMPLETED" ].
Proof.
  pose proof (counter_target_eight_bit 1000 true) as H8.
  split; [exact H8|].
  destruct (specific_scenarios_under_eight_bit_model
              (T := CounterTarget.buggy) H8 StressOverflow.repr_bool)
    as (_ & -> & _).
  vm_compute. reflexivity.
Defined.

(** ** The flags of the overflow summary *)

Section SummaryFlagFacts.
Import Str OverflowSummary.

(** X10: the flags of the overflow summary come from the run data alone.
    Without a [data_received] metric the three flags are false whatever the
    driver found; with it they are read off the string the runtime makes
    of its count; and when that conversion throws, [handleSummary] throws
    with it and returns no summary. *)
Theorem summary_flags_from_run_data (buf : option Q -> completion string)
  (data : summary_data) :
  (data !! "data_received" = None ->
     exists files,
       handleSummary buf data = Normal files
       /\ member "overflow_detected" (summary_json files) = Some (JBool false)
       /\ member "safety_bypass_detected" (summary_json files) = Some (JBool false)
       /\ member "counter_zero_confirmed" (summary_json files) = Some (JBool false))
  /\ (forall values stdout,
        data !! "data_received" = Some values ->
        buf (values !! "count") = Normal stdout ->
        exists files,
          handleSummary buf data = Normal files
          /\ member "overflow_detected" (summary_json files)
             = Some (JBool (includes stdout "OVERFLOW_DETECTED"))
          /\ member "safety_bypass_detected" (summary_json files)
             = Some (JBool (includes stdout "SAFETY_BYPASS"))
          /\ member "counter_zero_confirmed" (summary_json files)
             = Some (JBool (includes stdout "COUNTER_0")))
  /\ (forall values message,
        data !! "data_received" = Some values ->
        buf (values !! "count") = Throw message ->
        handleSummary buf data = Throw message).
Proof.
  unfold handleSummary. split; [|split].
  - intros ->. eexists. cbn. repeat split.
  - intros values stdout -> ->. eexists. cbn. repeat split.
  - intros values message -> ->. reflexivity.
Qed.

End SummaryFlagFacts.

(** ** The checks of the fast-typing scenario *)

Section FastTypingChecks.
Import Str K6 FastTyping ClockLaws.

Context {K : Clock}.

Lemma simulateRapidEditing_token (w : world) :
  fst (simulateRapidEditing w)
  = if editing_duration w <? 100 then "RACE_CONDITION_DETECTED" else "SUCCESS".
Proof.
  unfold simulateRapidEditing, editing_duration.
  destruct (getTime w) as [editStart w1].
  destruct (getTime _) as [editEnd w3].
  destruct (editEnd - editStart <? 100); reflexivity.
Qed.

Lemma simulateFastSetup_token (w : world) :
  fst (simulateFastSetup w) = "FAST_OPERATOR_DETECTED"
  \/ fst (simulateFastSetup w) = "SUCCESS".
Proof.
  unfold simulateFastSetup.
  destruct (getTime w) as [setupStart w1].
  destruct (getTime _) as [setupEnd w3].
  destruct (setupEnd - setupStart <? 180); auto.
Qed.

Lemma default_samples (w : world) :
  fst (default w)
  = [ ("No lethal overdose in mode change", negb (mode_change_duration w <? 200));
      ("No accidents in rapid typing", negb (mode_change_duration w <? 200));
      ("Edit race condition handled",
        negb (editing_duration (editing_world w) <? 100));
      ("Fast setup completed safely", true) ].
Proof.
  pose proof (simulateRapidModeChange_token w) as H1.
  pose proof (simulateRapidEditing_token (editing_world w)) as H2.
  unfold editing_world in *. unfold default.
  destruct (simulateRapidModeChange w) as [r1 w1]. cbn [fst snd] in *.
  destruct (simulateRapidEditing (sleep 0.5%Q w1)) as [r2 w3]. cbn [fst snd] in *.
  pose proof (simulateFastSetup_token (sleep 0.3%Q w3)) as H3.
  destruct (simulateFastSetup (sleep 0.3%Q w3)) as [r3 w5]. cbn [fst snd] in *.
  subst r1 r2. unfold check, mode_change_checks, editing_checks, setup_checks.
  cbn [map app fst snd].
  destruct (mode_change_duration w <? 200),
    (editing_duration (sleep 0.5%Q w1) <? 100), H3 as [-> | ->]; reflexivity.
Qed.

(** X11: the four checks of one fast-typing iteration.  The two checks of
    the mode change always agree, both failing exactly when the measured
    time of the mode change is below 200 ms; "Edit race condition handled"
    fails exactly when the measured time of the edits is below 100 ms; and
    "Fast setup completed safely" passes whatever the clock, since neither
    token of the fast setup holds ERROR. *)
Theorem fast_typing_samples (w : world) :
  exists mode_ok edit_ok : bool,
    fst (default w)
    = [ ("No lethal overdose in mode change", mode_ok);
        ("No accidents in rapid typing", mode_ok);
        ("Edit race condition handled", edit_ok);
        ("Fast setup completed safely", true) ]
    /\ (mode_ok = false <-> mode_change_duration w < 200)
    /\ (edit_ok = false <-> editing_duration (editing_world w) < 100).
Proof.
  exists (negb (mode_change_duration w <? 200)),
    (negb (editing_duration (editing_world w) <? 100)).
  split; [apply default_samples|].
  rewrite !negb_false_iff, !Z.ltb_lt. tauto.
Qed.

Lemma durations_bounded (now : world -> Z) (lo hi : Z) (w : world) :
  overruns K now lo hi ->
  150 + 2 * lo <= mode_change_duration w <= 150 + 2 * hi
  /\ 50 + 3 * lo <= editing_duration w <= 50 + 3 * hi.
Proof.
  intros [Hread Hsleep].
  unfold mode_change_duration, editing_duration.
  rewrite !Hread.
  pose proof (Hsleep 0.1%Q w) as H1.
  pose proof (Hsleep 0.05%Q (sleep 0.1%Q w)) as H2.
  pose proof (Hsleep 0.02%Q w) as H3.
  pose proof (Hsleep 0.01%Q (sleep 0.02%Q w)) as H4.
  pose proof (Hsleep 0.02%Q (sleep 0.01%Q (sleep 0.02%Q w))) as H5.
  change (Qceiling (0.1 * 1000)) with 100 in *.
  change (Qceiling (0.05 * 1000)) with 50 in *.
  change (Qceiling (0.02 * 1000)) with 20 in *.
  change (Qceiling (0.01 * 1000)) with 10 in *.
  lia.
Qed.

(** X12: on a prompt machine the iteration fails three of its four
    checks.  If reading the clock takes no time and every sleep overruns by
    at most 16 ms, the mode change is measured below 200 ms and the edits
    below 100 ms, so the scenario reports a lethal overdose, an accident
    and an unhandled race in every iteration. *)
Theorem fast_typing_fails_on_a_prompt_clock (now : world -> Z) (hi : Z)
  (w : world) :
  overruns K now 0 hi -> hi <= 16 ->
  fst (simulateRapidModeChange w) = "LETHAL_OVERDOSE"
  /\ fst (default w)
     = [ ("No lethal overdose in mode change", false);
         ("No accidents in rapid typing", false);
         ("Edit race condition handled", false);
         ("Fast setup completed safely", true) ].
Proof.
  intros Hclock Hhi.
  destruct (durations_bounded now 0 hi w Hclock) as [Hmode _].
  destruct (durations_bounded now 0 hi (editing_world w) Hclock) as [_ Hedit].
  rewrite default_samples, simulateRapidModeChange_token.
  assert (H1 : (mode_change_duration w <? 200) = true) by (apply Z.ltb_lt; lia).
  assert (H2 : (editing_duration (editing_world w) <? 100) = true)
    by (apply Z.ltb_lt; lia).
  rewrite H1, H2. split; reflexivity.
Qed.

(** X13: on a slow machine every check passes.  If every sleep overruns by
    at least 25 ms, the mode change is measured at 200 ms or more and the
    edits at 100 ms or more, and all four checks of the iteration pass. *)
Theorem fast_typing_passes_on_a_slow_clock (now : world -> Z) (lo hi : Z)
  (w : world) :
  overruns K now lo hi -> 25 <= lo ->
  fst (simulateRapidModeChange w) = "SUCCESS"
  /\ fst (default w)
     = [ ("No lethal overdose in mode change", true);
         ("No accidents in rapid typing", true);
         ("Edit race condition handled", true);
         ("Fast setup completed safely", true) ].
Proof.
  intros Hclock Hlo.
  destruct (durations_bounded now lo hi w Hclock) as [Hmode _].
  destruct (durations_bounded now lo hi (editing_world w) Hclock) as [_ Hedit].
  rewrite default_samples, simulateRapidModeChange_token.
  assert (H1 : (mode_change_duration w <? 200) = false) by (apply Z.ltb_ge; lia).
  assert (H2 : (editing_duration (editing_world w) <? 100) = false)
    by (apply Z.ltb_ge; lia).
  rewrite H1, H2. split; reflexivity.
Qed.

End FastTypingChecks.

Lemma sample_clock_overruns (late : Z) :
  ClockLaws.overruns (CounterTarget.clock late) (fun w => w) late late.
Proof. split; [reflexivity|]. intros s w. cbn. lia. Qed.

Lemma fast_typing_fails_on_a_prompt_clock_witness :
  ClockLaws.overruns (CounterTarget.clock 0) (fun w => w) 0 0
  /\ 0 <= 16
  /\ fst (@FastTyping.simulateRapidModeChange (CounterTarget.clock 0) 1000)
     = "LETHAL_OVERDOSE".
Proof.
  split; [apply sample_clock_overruns|]. split; [lia|].
  apply (fast_typing_fails_on_a_prompt_clock (K := CounterTarget.clock 0)
           (fun w => w) 0 1000 (sample_clock_overruns 0)).
  lia.
Defined.

Lemma fast_typing_passes_on_a_slow_clock_witness :
  ClockLaws.overruns (CounterTarget.clock 30) (fun w => w) 30 30
  /\ 25 <= 30
  /\ fst (@FastTyping.simulateRapidModeChange (CounterTarget.clock 30) 1000)
     = "SUCCESS".
Proof.
  split; [apply sample_clock_overruns|]. split; [lia|].
  apply (fast_typing_passes_on_a_slow_clock (K := CounterTarget.clock 30)
           (fun w => w) 30 30 1000 (sample_clock_overruns 30)).
  lia.
Defined.

(** ** The summaries of the other two scenarios *)

Section OtherSummaries.
Import Str K6 OverflowSummary.

Lemma below_iff (bound rate : Q) :
  negb (Qle_bool bound rate) = true <-> (rate < bound)%Q.
Proof.
  rewrite negb_true_iff. split.
  - intros H. apply Qnot_le_lt. intros Hle.
    apply Qle_bool_iff in Hle. congruence.
  - intros H. destruct (Qle_bool bound rate) eqn:E; [|reflexivity].
    apply Qle_bool_iff in E. exfalso. apply (Qlt_not_le _ _ H E).
Qed.

Lemma or_zero_same (rate : Q) : (or_zero (Some rate) == rate)%Q.
Proof.
  unfold or_zero. destruct (Qeq_bool rate 0) eqn:E; [|reflexivity].
  apply Qeq_bool_iff in E. symmetry. exact E.
Qed.

(** X14: the concurrent summary warns of safety failures below a check
    rate of 0.95.  The line "SAFETY FAILURES DETECTED!" is logged exactly
    when the check rate read from the data is below 0.95, so it is logged
    when the run recorded no check at all, and it is logged for a rate
    between 0.90 and 0.95, which the scenario's own threshold on the check
    rate accepts; the race warning is logged exactly when the counter of
    races is positive. *)
Theorem concurrent_summary_warnings (show : Q -> string)
  (toFixed : Q -> nat -> string) (raceConditionsDetected : Z)
  (data : summary_data) :
  let log :=
    fst (ConcurrentSummary.handleSummary show toFixed raceConditionsDetected data) in
  let checkRate := or_zero (metric_value data "checks" "rate") in
  ("💀 SAFETY FAILURES DETECTED!" ∈ log <-> (checkRate < 0.95)%Q)
  /\ ("⚠️ RACE CONDITIONS DETECTED!" ∈ log <-> 0 < raceConditionsDetected)
  /\ (metric_value data "checks" "rate" = None ->
      "💀 SAFETY FAILURES DETECTED!" ∈ log)
  /\ (forall rate,
        metric_value data "checks" "rate" = Some rate ->
        (0.90 < rate)%Q -> (rate < 0.95)%Q ->
        "💀 SAFETY FAILURES DETECTED!" ∈ log
        /\ exists t, t ∈ ConcurrentOperations.thresholds
                     /\ metric_name t = "checks"
                     /\ ThresholdEvaluator.holds (cmp t) rate (bound t) = true).
Proof.
  cbv zeta. unfold ConcurrentSummary.handleSummary. cbn [fst].
  set (checkRate := or_zero (metric_value data "checks" "rate")).
  assert (Hsafety :
    "💀 SAFETY FAILURES DETECTED!"
      ∈ [ nl +:+ "👥 THERAC-25 CONCURRENT OPERATIONS TEST SUMMARY";
          "===============================================";
          "Total concurrent sessions: "
            +:+ show (or_zero (metric_value data "iterations" "count"));
          "Race conditions detected: " +:+ num raceConditionsDetected;
          "Safety check success rate: " +:+ toFixed (checkRate * 100)%Q 1%nat +:+ "%";
          "Average operation time: "
            +:+ toFixed (or_zero (metric_value data "http_req_duration" "avg")) 0%nat
            +:+ "ms" ]
        ++ (if raceConditionsDetected >? 0
            then [ "⚠️ RACE CONDITIONS DETECTED!";
                   "🔧 Proper synchronization (mutexes, locks) would prevent this." ]
            else [])
        ++ (if negb (Qle_bool 0.95 checkRate)
            then [ "💀 SAFETY FAILURES DETECTED!";
                   "🔧 Comprehensive testing would have caught these bugs." ]
            else [])
    <-> (checkRate < 0.95)%Q).
  { rewrite <- below_iff, !elem_of_app. split.
    - intros [H|[H|H]].
      + repeat (apply elem_of_cons in H as [H|H]; [discriminate H|]).
        inversion H.
      + destruct (_ >? _);
          repeat (apply elem_of_cons in H as [H|H]; [discriminate H|]);
          inversion H.
      + destruct (negb _); [reflexivity | inversion H].
    - intros ->. right. right. apply list_elem_of_here. }
  split; [exact Hsafety|]. split; [|split].
  - rewrite !elem_of_app. split.
    + intros [H|[H|H]].
      * repeat (apply elem_of_cons in H as [H|H]; [discriminate H|]).
        inversion H.
      * destruct (Z.gtb_spec raceConditionsDetected 0); [lia | inversion H].
      * destruct (negb _);
          repeat (apply elem_of_cons in H as [H|H]; [discriminate H|]);
          inversion H.
    + intros H. right. left.
      destruct (Z.gtb_spec raceConditionsDetected 0); [|lia].
      apply list_elem_of_here.
  - intros Hnone. apply Hsafety. unfold checkRate. rewrite Hnone. reflexivity.
  - intros rate Hrate Hlo Hhi. split.
    + apply Hsafety. unfold checkRate. rewrite Hrate, or_zero_same. exact Hhi.
    + exists (mkThreshold "checks" "rate" Gt 0.90%Q).
      split; [unfold ConcurrentOperations.thresholds; repeat constructor|].
      split; [reflexivity|]. cbn [cmp bound ThresholdEvaluator.holds].
      apply below_iff. exact Hlo.
Qed.

Import FastTypingSummary.

Lemma accidents_by_name (values values' : list check_result) :
  map name values = map name values' ->
  length (List.filter names_accident values)
  = length (List.filter names_accident values').
Proof.
  revert values'. induction values as [|v values IH]; intros [|v' values'] H;
    try discriminate H; [reflexivity|].
  cbn [map] in H. injection H as Hname Hrest.
  assert (Hn : names_accident v = names_accident v')
    by (unfold names_accident; rewrite Hname; reflexivity).
  cbn [List.filter]. rewrite Hn.
  destruct (names_accident v'); cbn [length]; rewrite (IH values' Hrest);
    reflexivity.
Qed.

(** X15: the fast-typing summary counts accidents by the names of the
    checks, not by their results.  When [data.checks] holds the four
    checks the scenario records, the summary reports exactly one accident
    and logs the CRITICAL line whatever the pass and fail counts, because
    the name of the first check holds both words it looks for; two inputs
    whose checks have the same names get the same count. *)
Theorem fast_typing_accidents_by_name (show : Q -> string)
  (data : summary_input) (values : list check_result) :
  checks data = Some values ->
  map name values = recorded_names ->
  accidents data = 1
  /\ member "accidents_detected" (snd (snd (handleSummary show data)))
     = Some (JNum (inject_Z 1))
  /\ "💀 CRITICAL: Fast typing exposed dangerous conditions!"
       ∈ fst (handleSummary show data)
  /\ (forall data' values',
        checks data' = Some values' -> map name values' = map name values ->
        accidents data' = accidents data).
Proof.
  intros Hchecks Hnames.
  assert (Hone : accidents data = 1).
  { unfold accidents. rewrite Hchecks.
    rewrite (accidents_by_name values
               (map (fun n => mkCheckResult n 0 0) recorded_names)).
    - reflexivity.
    - rewrite Hnames, map_map. cbn [name]. symmetry. apply map_id. }
  split; [exact Hone|]. split; [|split].
  - unfold handleSummary. cbn [snd member field String.eqb].
    rewrite Hone. reflexivity.
  - unfold handleSummary. cbn [fst]. rewrite Hone. cbn [Z.gtb Z.compare].
    apply elem_of_app. right. apply list_elem_of_here.
  - intros data' values' Hchecks' Hsame. unfold accidents.
    rewrite Hchecks, Hchecks', (accidents_by_name values' values Hsame).
    reflexivity.
Qed.

Lemma fast_typing_accidents_by_name_witness :
  let all_passed :=
    mkInput (Some (map (fun n => mkCheckResult n 40 0) recorded_names)) ∅ in
  checks all_passed = Some (map (fun n => mkCheckResult n 40 0) recorded_names)
  /\ map name (map (fun n => mkCheckResult n 40 0) recorded_names) = recorded_names
  /\ accidents all_passed = 1.
Proof.
  cbv zeta. split; [reflexivity|]. split; [reflexivity|].
  apply (fast_typing_accidents_by_name (fun _ => EmptyString)
           (mkInput (Some (map (fun n => mkCheckResult n 40 0) recorded_names)) ∅)
           (map (fun n => mkCheckResult n 40 0) recorded_names));
    reflexivity.
Defined.

(** X16: without a [data.checks] object the fast-typing summary reports no
    accident, whatever the checks of the run did, and logs that none was
    detected. *)
Theorem fast_typing_no_checks_no_accident (show : Q -> string)
  (data : summary_input) :
  checks data = None ->
  accidents data = 0
  /\ member "accidents_detected" (snd (snd (handleSummary show data)))
     = Some (JNum (inject_Z 0))
  /\ "✅ No accidents detected in fast typing scenario"
       ∈ fst (handleSummary show data)
  /\ "💀 CRITICAL: Fast typing exposed dangerous conditions!"
       ∉ fst (handleSummary show data).
Proof.
  intros Hchecks.
  assert (Hzero : accidents data = 0) by (unfold accidents; rewrite Hchecks; reflexivity).
  split; [exact Hzero|]. unfold handleSummary. cbn [fst snd member field String.eqb].
  rewrite Hzero. cbn [Z.gtb Z.compare]. split; [reflexivity|]. split.
  - apply elem_of_app. right. apply list_elem_of_here.
  - intros H. apply elem_of_app in H as [H|H];
      repeat (apply elem_of_cons in H as [H|H]; [discriminate H|]);
      inversion H.
Qed.

Lemma fast_typing_no_checks_no_accident_witness :
  checks (mkInput None ∅) = None /\ accidents (mkInput None ∅) = 0.
Proof.
  split; [reflexivity|].
  apply (fast_typing_no_checks_no_accident (fun _ => EmptyString)
           (mkInput None ∅)).
  reflexivity.
Defined.

End OtherSummaries.

(** ** What the findings of the driver imply, on any target *)

Section FindingFacts.
Import Str Chars K6 StressOverflow DriverInvariant.

Context {T : ControlModule}.

Lemma zero_in_window : 0 ∈ window.
Proof. unfold window. repeat constructor. Qed.

Lemma loop_body_coherent (patient : Z) (d : driver) :
  coherent d -> coherent (loop_body patient d).
Proof.
  intros [Hflag Hbypass]. unfold coherent.
  rewrite loop_body_overflow, loop_body_points, loop_body_bypasses. cbv zeta.
  set (counter := setup_counter (patient_setup patient (c d))).
  destruct (wraps patient counter) eqn:Hw.
  - (* the iteration that observes the wraparound *)
    assert (Hzero : counter = 0 /\ 255 < patient).
    { unfold wraps in Hw. apply andb_true_iff in Hw as [H0 Hp].
      apply Z.eqb_eq in H0. apply Z.gtb_gt in Hp. lia. }
    destruct Hzero as [Hzero Hp]. rewrite Hzero, orb_true_r.
    rewrite (bool_decide_eq_true_2 _ zero_in_window).
    split.
    + intros _. rewrite existsb_app. cbn. apply orb_true_r.
    + intros p Hin. split; [reflexivity|].
      apply elem_of_app in Hin as [Hin|Hin].
      * destruct (Hbypass p Hin) as (_ & Hgt & Hpt).
        split; [exact Hgt|]. apply elem_of_app. left. exact Hpt.
      * cbn [andb] in Hin. destruct (_ && _)%bool; [|inversion Hin].
        apply list_elem_of_singleton in Hin as ->.
        split; [exact Hp|]. apply elem_of_app. right. apply list_elem_of_here.
  - rewrite orb_false_r. cbn [andb]. rewrite app_nil_r. split.
    + intros Ho. rewrite existsb_app, (Hflag Ho). reflexivity.
    + intros p Hin. destruct (Hbypass p Hin) as (Ho & Hgt & Hpt).
      split; [exact Ho|]. split; [exact Hgt|]. apply elem_of_app. left. exact Hpt.
Qed.

Lemma run_patients_coherent (patients : list Z) (d : driver) :
  coherent d -> coherent (run_patients patients d).
Proof.
  revert d. induction patients as [|patient rest IH]; intros d Hd; [exact Hd|].
  apply (IH (loop_body patient d)), loop_body_coherent, Hd.
Qed.

Lemma loop_end_coherent : coherent loop_end.
Proof.
  apply run_patients_coherent. split; [discriminate|].
  intros patient H. inversion H.
Qed.

(** X17: the findings of the driver are nested on every target.  A run
    that records a safety bypass has observed the wraparound, and a run
    that has observed the wraparound holds a critical point with counter 0;
    every patient of the bypass list lies beyond 255 and is paired with
    counter 0 among the critical points.  So in the summary line
    SAFETY_BYPASS never stands without OVERFLOW_DETECTED, nor
    OVERFLOW_DETECTED without COUNTER_0. *)
Theorem driver_findings_are_nested :
  (bypass_observed loop_end = true -> overflow_detected loop_end = true)
  /\ (overflow_detected loop_end = true ->
      existsb (fun point => snd point =? 0) (critical_points loop_end) = true)
  /\ (forall patient, patient ∈ safety_bypasses loop_end ->
        255 < patient /\ (patient, 0) ∈ critical_points loop_end)
  /\ ("SAFETY_BYPASS" ∈ result_parts loop_end ->
      "OVERFLOW_DETECTED" ∈ result_parts loop_end)
  /\ ("OVERFLOW_DETECTED" ∈ result_parts loop_end ->
      "COUNTER_0" ∈ result_parts loop_end).
Proof.
  destruct loop_end_coherent as [Hflag Hbypass].
  assert (Hbo : bypass_observed loop_end = true -> overflow_detected loop_end = true).
  { unfold bypass_observed. destruct (safety_bypasses loop_end) as [|p rest] eqn:E;
      [discriminate|].
    intros _. apply (Hbypass p). apply list_elem_of_here. }
  split; [exact Hbo|]. split; [exact Hflag|]. split.
  { intros p Hin. destruct (Hbypass p Hin) as (_ & Hgt & Hpt). auto. }
  unfold result_parts. split.
  - intros Hin. apply elem_of_app. left.
    destruct (overflow_detected loop_end) eqn:Ho; [apply list_elem_of_here|].
    exfalso. cbn [app] in Hin.
    destruct (safety_bypasses loop_end) as [|p rest] eqn:E.
    + cbn [app] in Hin. destruct (existsb _ _); cbn [app] in Hin;
        repeat (apply elem_of_cons in Hin as [Hin|Hin]; [discriminate Hin|]);
        inversion Hin.
    + assert (H : true = false) by (rewrite <- Hbo; [reflexivity|];
                                    unfold bypass_observed; rewrite E; reflexivity).
      discriminate H.
  - intros Hin. apply elem_of_app. right. apply elem_of_app. right.
    apply elem_of_app. left.
    destruct (overflow_detected loop_end) eqn:Ho.
    + rewrite (Hflag eq_refl). apply list_elem_of_here.
    + exfalso. cbn [app] in Hin.
      destruct (safety_bypasses loop_end);
        destruct (existsb _ _); cbn [app] in Hin;
        repeat (apply elem_of_cons in Hin as [Hin|Hin]; [discriminate Hin|]);
        inversion Hin.
Qed.

(** X18: trimming the output changes no verdict.  Each check of the
    overflow scenario and each check and the race test of the concurrent
    scenario gives the same answer on the output of the child process and
    on its trimmed form. *)
Theorem trimming_changes_no_verdict (out : string) (n : Z) :
  check (trim out) StressOverflow.checks = check out StressOverflow.checks
  /\ ConcurrentOperations.classify (trim out) n
     = ConcurrentOperations.classify out n.
Proof.
  unfold ConcurrentOperations.classify, check, StressOverflow.checks,
    ConcurrentOperations.checks.
  cbn [map fst snd]. rewrite !includes_trim by reflexivity.
  split; reflexivity.
Qed.

End FindingFacts.
